(** * Event sets (H5ES.c): the public entry points over the handle registry

    The public functions of H5ES.c are embedded as they are written: each one
    looks its identifier up in the handle registry, checks its arguments,
    reports an error on the library's error stack and returns [FAIL], or does
    its work and returns [SUCCEED].  Out-parameters are pointers into the
    caller's memory; a store through [NULL] is a fault.  The entry and exit
    instrumentation of the API (FUNC_ENTER_API, H5TRACE, FUNC_LEAVE_API) is
    not part of the model: a call starts at its argument checks and ends at
    [done:].

    The package-level routines the entry points call (the event lists, the
    wait engine, the error-info extractor, the close callback) live in other
    files of the library; they are modelled from the design document and are
    marked as such. *)

From Stdlib Require Import ZArith Lia.
From stdpp Require Import gmap strings list.

Open Scope Z_scope.

(** ** C scalars *)

Definition hid_t := Z.
Definition herr_t := Z.

Definition SUCCEED : herr_t := 0.
Definition FAIL : herr_t := -1.

(** [uint64_t] arithmetic wraps modulo 2^64. *)
Definition UINT64_MOD : Z := 2 ^ 64.
Definition UINT64_MAX : Z := UINT64_MOD - 1.
Definition uint64 (z : Z) : Z := z mod UINT64_MOD.

(** A pointer argument: [NULL] or the address of a cell of caller memory. *)
Inductive pointer := NULL | Ptr (a : Z).

Global Instance pointer_eq_dec : EqDecision pointer.
Proof. solve_decision. Defined.

(** ** Error stack entries *)

Inductive H5E_major := H5E_ARGS | H5E_EVENTSET.

Inductive H5E_minor :=
| H5E_BADTYPE
| H5E_BADVALUE
| H5E_CANTCREATE
| H5E_CANTREGISTER
| H5E_CANTWAIT
| H5E_CANTGET
| H5E_CANTDEC
| H5E_BUSY.

Record H5E_error := mkErr {
  err_maj : H5E_major;
  err_min : H5E_minor;
  err_desc : string
}.

(** The error kinds of the design document, as the (major, minor) pairs the
    code pushes. *)
Definition is_kind (maj : H5E_major) (min : H5E_minor) (e : H5E_error) : Prop :=
  err_maj e = maj ∧ err_min e = min.

Definition BAD_HANDLE : H5E_error → Prop := is_kind H5E_ARGS H5E_BADTYPE.
Definition BAD_VALUE : H5E_error → Prop := is_kind H5E_ARGS H5E_BADVALUE.
Definition CANT_WAIT : H5E_error → Prop := is_kind H5E_EVENTSET H5E_CANTWAIT.
Definition BUSY : H5E_error → Prop := is_kind H5E_EVENTSET H5E_BUSY.

(** ** Operation records and event sets *)

Inductive H5ES_status_t :=
| H5ES_STATUS_IN_PROGRESS
| H5ES_STATUS_SUCCEED
| H5ES_STATUS_FAIL
| H5ES_STATUS_CANCEL.

Global Instance H5ES_status_eq_dec : EqDecision H5ES_status_t.
Proof. solve_decision. Defined.

Definition token_t := Z.

Record H5ES_event_t := mkEvent {
  ev_counter : Z;
  ev_api_name : string;
  ev_app_file : string;
  ev_app_func : string;
  ev_app_line : Z;
  ev_app_version : string;
  ev_timestamp : Z;
  ev_token : token_t;
  ev_status : H5ES_status_t
}.

Definition set_counter (c : Z) (ev : H5ES_event_t) : H5ES_event_t :=
  mkEvent c (ev_api_name ev) (ev_app_file ev) (ev_app_func ev) (ev_app_line ev)
          (ev_app_version ev) (ev_timestamp ev) (ev_token ev) (ev_status ev).

Definition set_status (s : H5ES_status_t) (ev : H5ES_event_t) : H5ES_event_t :=
  mkEvent (ev_counter ev) (ev_api_name ev) (ev_app_file ev) (ev_app_func ev)
          (ev_app_line ev) (ev_app_version ev) (ev_timestamp ev) (ev_token ev) s.

(** The fields of [H5ES_t] the entry points read: [es->active], [es->failed],
    [es->op_counter], [es->err_occurred].  An event list is kept as the list
    of its records in insertion order. *)
Record H5ES_t := mkES {
  active : list H5ES_event_t;
  failed : list H5ES_event_t;
  op_counter : Z;
  err_occurred : bool
}.

(** Modelled from the spec: [H5ES__list_count] is not among the sources;
    count(list) returns the current length of the list. *)
Definition H5ES__list_count (el : list H5ES_event_t) : Z := Z.of_nat (length el).

(** The error-info record handed to the caller by the extractor. *)
Record H5ES_err_info_t := mkInfo {
  info_api_name : string;
  info_app_file : string;
  info_app_func : string;
  info_app_line : Z;
  info_app_version : string;
  info_counter : Z;
  info_timestamp : Z;
  info_status : H5ES_status_t;
  info_err_stack : list string
}.

(** ** Caller memory *)

Inductive value :=
| VSize (n : Z)
| VUInt64 (n : Z)
| VBool (b : bool)
| VErrInfo (i : H5ES_err_info_t).

(** ** The handle registry *)

Inductive H5I_other_t :=
| H5I_FILE | H5I_GROUP | H5I_DATATYPE | H5I_DATASPACE | H5I_DATASET | H5I_ATTR.

Inductive H5I_type_t :=
| H5I_BADID
| H5I_EVENTSET
| H5I_OTHER (t : H5I_other_t).

Global Instance H5I_other_eq_dec : EqDecision H5I_other_t.
Proof. solve_decision. Defined.
Global Instance H5I_type_eq_dec : EqDecision H5I_type_t.
Proof. solve_decision. Defined.

(** What an identifier is registered for: an event set, or an object of
    another type (whose contents play no role here). *)
Inductive H5I_entry :=
| IdEventSet (es : H5ES_t)
| IdOther (t : H5I_other_t).

(** ** The asynchronous runtime *)

(** A poll answers with the operation's status, or with [None] when the
    runtime itself could not execute the request, and with the time the call
    took. *)

Record poll_reply := mkReply {
  pr_status : option H5ES_status_t;
  pr_elapsed : Z
}.

(** Modelled from the spec: the asynchronous runtime (section 6) is an
    external collaborator, not among the sources; the event set only polls
    it, asks it for the diagnostics of a failed operation and gives tokens
    back.  It is kept abstract: a state and the three entry points of its
    contract. *)
Record async_runtime := mkRuntime {
  rt_state : Type;
  rt_poll : token_t → Z → rt_state → poll_reply * rt_state;
  rt_snapshot : token_t → rt_state → option (list string);
  rt_release : token_t → rt_state → rt_state
}.

(** An entry of the trace of polls: the token polled, the budget given, the
    reply. *)
Record poll_event := mkPoll {
  pe_token : token_t;
  pe_budget : Z;
  pe_reply : poll_reply
}.

Section EventSet.

Context {RT : async_runtime}.

(** The runtime together with the wall clock and the trace of what the
    library asked of it (polls and released tokens, oldest first). *)
Record world := mkWorld {
  rt : rt_state RT;
  clock : Z;
  polls : list poll_event;
  released : list token_t
}.

Record state := mkState {
  ids : gmap Z H5I_entry;
  mem : gmap Z value;
  err_stack : list H5E_error;
  wld : world
}.

Definition set_ids (m : gmap Z H5I_entry) (s : state) : state :=
  mkState m (mem s) (err_stack s) (wld s).
Definition set_mem (m : gmap Z value) (s : state) : state :=
  mkState (ids s) m (err_stack s) (wld s).
Definition set_err_stack (l : list H5E_error) (s : state) : state :=
  mkState (ids s) (mem s) l (wld s).
Definition set_wld (w : world) (s : state) : state :=
  mkState (ids s) (mem s) (err_stack s) w.

(** ** The monad of library calls: state, faults and fuel *)

Inductive outcome (A : Type) :=
| Done (a : A) (s : state)
| Fault
| NoFuel.
Arguments Done {A} a s.
Arguments Fault {A}.
Arguments NoFuel {A}.

Definition M (A : Type) : Type := state → outcome A.

Definition ret {A} (a : A) : M A := λ s, Done a s.

Definition bind {A B} (m : M A) (k : A → M B) : M B :=
  λ s, match m s with
       | Done a s' => k a s'
       | Fault => Fault
       | NoFuel => NoFuel
       end.

Notation "'do' x <- m ; k" := (bind m (λ x, k))
  (at level 10, x name, m at level 100, k at level 200).
Notation "'run' m ; k" := (bind m (λ _, k))
  (at level 10, m at level 100, k at level 200).

Definition get_state : M state := λ s, Done s s.
Definition put_state (s : state) : M unit := λ _, Done tt s.

(** [*p = v] *)
Definition store (p : pointer) (v : value) : M unit :=
  λ s, match p with
       | NULL => Fault
       | Ptr a => Done tt (set_mem (<[a := v]> (mem s)) s)
       end.

(** [HGOTO_ERROR(maj, min, ret_val, msg)]: push the error, leave with
    [ret_val]. *)
Definition HGOTO_ERROR (maj : H5E_major) (min : H5E_minor) (ret_val : herr_t)
    (msg : string) : M herr_t :=
  λ s, Done ret_val (set_err_stack (mkErr maj min msg :: err_stack s) s).

(** Modelled from the spec: [H5I_get_type] belongs to the handle registry,
    which is not among the sources; the registry maps a public identifier to
    the object registered under it and its type. *)
Definition H5I_get_type (id : hid_t) : M H5I_type_t :=
  λ s, Done (match ids s !! id with
             | Some (IdEventSet _) => H5I_EVENTSET
             | Some (IdOther t) => H5I_OTHER t
             | None => H5I_BADID
             end) s.

(** Modelled from the spec: [H5I_object_verify] belongs to the handle
    registry, which is not among the sources; it returns the object behind
    the identifier if the identifier is of the type asked for, NULL
    otherwise.  The pointer returned for an event set is rendered as the
    event set found. *)
Definition H5I_object_verify (id : hid_t) (ty : H5I_type_t) : M (option H5ES_t) :=
  λ s, Done (match ids s !! id with
             | Some (IdEventSet es) =>
                 if decide (ty = H5I_EVENTSET) then Some es else None
             | _ => None
             end) s.

(** The event set behind an identifier, as a pure query on the state. *)
Definition event_set_of (id : hid_t) (s : state) : option H5ES_t :=
  match ids s !! id with
  | Some (IdEventSet es) => Some es
  | _ => None
  end.

(** The event set is updated in place through the pointer the registry
    returned. *)
Definition update_es (id : hid_t) (es : H5ES_t) : M unit :=
  λ s, Done tt (set_ids (<[id := IdEventSet es]> (ids s)) s).

(** ** Read-only accessors *)

Definition H5ESget_count (es_id : hid_t) (count : pointer) : M herr_t :=
  do es <- H5I_object_verify es_id H5I_EVENTSET;
  match es with
  | None => HGOTO_ERROR H5E_ARGS H5E_BADTYPE FAIL "invalid event set identifier"
  | Some es =>
      run (if decide (count ≠ NULL)
           then store count (VSize (H5ES__list_count (active es)))
           else ret tt);
      ret SUCCEED
  end.

Definition H5ESget_op_counter (es_id : hid_t) (op_counter_p : pointer) : M herr_t :=
  do es <- H5I_object_verify es_id H5I_EVENTSET;
  match es with
  | None => HGOTO_ERROR H5E_ARGS H5E_BADTYPE FAIL "invalid event set identifier"
  | Some es =>
      run (if decide (op_counter_p ≠ NULL)
           then store op_counter_p (VUInt64 (op_counter es))
           else ret tt);
      ret SUCCEED
  end.

Definition H5ESget_err_status (es_id : hid_t) (err_status : pointer) : M herr_t :=
  do es <- H5I_object_verify es_id H5I_EVENTSET;
  match es with
  | None => HGOTO_ERROR H5E_ARGS H5E_BADTYPE FAIL "invalid event set identifier"
  | Some es =>
      run (if decide (err_status ≠ NULL)
           then store err_status (VBool (err_occurred es))
           else ret tt);
      ret SUCCEED
  end.

Definition H5ESget_err_count (es_id : hid_t) (num_errs : pointer) : M herr_t :=
  do es <- H5I_object_verify es_id H5I_EVENTSET;
  match es with
  | None => HGOTO_ERROR H5E_ARGS H5E_BADTYPE FAIL "invalid event set identifier"
  | Some es =>
      run (if decide (num_errs ≠ NULL)
           then if err_occurred es
                then store num_errs (VSize (H5ES__list_count (failed es)))
                else store num_errs (VSize 0)
           else ret tt);
      ret SUCCEED
  end.

(** ** Talking to the runtime *)

(** Modelled from the spec: the poll of the runtime contract (section 6),
    as the library sees it: the reply, the clock advanced by the time the
    poll took, and the poll recorded in the trace. *)
Definition async_poll (tok : token_t) (budget : Z) (w : world) : poll_reply * world :=
  let '(r, rt') := rt_poll RT tok budget (rt w) in
  (r, mkWorld rt' (clock w + Z.max 0 (pr_elapsed r))
              (polls w ++ [mkPoll tok budget r]) (released w)).

(** Modelled from the spec: the release of a token (section 6), recorded
    in the trace. *)
Definition async_release (tok : token_t) (w : world) : world :=
  mkWorld (rt_release RT tok (rt w)) (clock w) (polls w) (released w ++ [tok]).

(** Modelled from the spec: freeing a record first gives its token back to
    the runtime (section 4.1). *)
Definition free_events (evs : list H5ES_event_t) (w : world) : world :=
  foldl (λ w ev, async_release (ev_token ev) w) w evs.

(** ** The wait engine *)

(** Modelled from the spec: the sentinel timeout that means block
    indefinitely is the largest [uint64_t]. *)
Definition H5ES_WAIT_FOREVER : Z := UINT64_MAX.

(** Modelled from the spec: the budget left is the timeout less the time
    elapsed since the call started, clamped at 0; the sentinel is never
    used up. *)
Definition remaining_budget (timeout t_start : Z) (w : world) : Z :=
  if decide (timeout = H5ES_WAIT_FOREVER) then timeout
  else Z.max 0 (timeout - (clock w - t_start)).

Inductive sweep_result :=
| SweepOk (kept fl : list H5ES_event_t) (err : bool) (w : world)
          (any_failed any_succeed : bool)
| SweepErr (kept fl : list H5ES_event_t) (err : bool) (w : world).

(** Modelled from the spec: one sweep of the wait engine (section 4.4, step
    2b), which is not among the sources.  The records of the active list are
    visited in insertion order; each is polled with the budget that is left.
    IN_PROGRESS leaves the record in place ([kept]); SUCCEED unlinks and
    frees it; FAIL and CANCEL set its status, move it to the tail of the
    failed list [fl] and latch the error flag [err].  A poll the runtime could
    not execute ends the walk with the records not yet settled still
    active.  No completion callback is installed. *)
Fixpoint sweep (timeout t_start : Z) (todo kept fl : list H5ES_event_t)
    (err : bool) (w : world) (any_failed any_succeed : bool) : sweep_result :=
  match todo with
  | [] => SweepOk kept fl err w any_failed any_succeed
  | ev :: rest =>
      let '(r, w') :=
        async_poll (ev_token ev) (remaining_budget timeout t_start w) w in
      match pr_status r with
      | None => SweepErr (kept ++ ev :: rest) fl err w'
      | Some H5ES_STATUS_IN_PROGRESS =>
          sweep timeout t_start rest (kept ++ [ev]) fl err w' any_failed any_succeed
      | Some H5ES_STATUS_SUCCEED =>
          sweep timeout t_start rest kept fl err
                (async_release (ev_token ev) w') any_failed true
      | Some st =>
          sweep timeout t_start rest kept (fl ++ [set_status st ev]) true w'
                true any_succeed
      end
  end.

Inductive wait_result :=
| WaitDone (es : H5ES_t) (w : world) (any_failed_ever : bool)
| WaitErr (es : H5ES_t) (w : world)
| WaitNoFuel.

(** Modelled from the spec: the loop of the wait engine (section 4.4, step
    2).  After a sweep it stops if a record failed in it (2c), if the active
    list is empty (2d), if the timeout is 0, the value that means poll once,
    do not block, or if the budget is used up and the sweep saw no SUCCEED
    either (2e); otherwise it sweeps again (2f).  [fuel] bounds the number
    of sweeps. *)
Fixpoint wait_loop (fuel : nat) (timeout t_start : Z) (es : H5ES_t) (w : world)
    (any_failed_ever : bool) : wait_result :=
  match fuel with
  | O => WaitNoFuel
  | S fuel' =>
      match sweep timeout t_start (active es) [] (failed es) (err_occurred es)
                  w false false with
      | SweepErr kept fl err w' => WaitErr (mkES kept fl (op_counter es) err) w'
      | SweepOk kept fl err w' any_failed any_succeed =>
          let es' := mkES kept fl (op_counter es) err in
          if any_failed then WaitDone es' w' true
          else if decide (kept = []) then WaitDone es' w' any_failed_ever
          else if (timeout =? 0)
                  || ((remaining_budget timeout t_start w' =? 0)
                      && negb any_succeed)
               then WaitDone es' w' any_failed_ever
               else wait_loop fuel' timeout t_start es' w' any_failed_ever
      end
  end.

(** Modelled from the spec: [H5ES__wait] (section 4.4), which is not among
    the sources.  [es] is the event set found under [es_id]; it is updated in
    place.  On stop the two out-parameters are set (step 3); when the runtime
    could not execute a poll the call fails and leaves them alone. *)
Definition H5ES__wait (fuel : nat) (es_id : hid_t) (es : H5ES_t) (timeout : Z)
    (num_in_progress op_failed : pointer) : M herr_t :=
  do s <- get_state;
  match wait_loop fuel timeout (clock (wld s)) es (wld s) false with
  | WaitNoFuel => λ _, NoFuel
  | WaitErr es' w' =>
      run put_state (set_wld w' s);
      run update_es es_id es';
      ret FAIL
  | WaitDone es' w' any_failed_ever =>
      run put_state (set_wld w' s);
      run update_es es_id es';
      run store num_in_progress (VSize (H5ES__list_count (active es')));
      run store op_failed
          (VBool (any_failed_ever
                  || (err_occurred es' && (0 <? H5ES__list_count (failed es')))));
      ret SUCCEED
  end.

Definition H5ESwait (fuel : nat) (es_id : hid_t) (timeout : Z)
    (num_in_progress op_failed : pointer) : M herr_t :=
  do es <- H5I_object_verify es_id H5I_EVENTSET;
  match es with
  | None => HGOTO_ERROR H5E_ARGS H5E_BADTYPE FAIL "invalid event set identifier"
  | Some es =>
      if decide (NULL = num_in_progress)
      then HGOTO_ERROR H5E_ARGS H5E_BADVALUE FAIL "NULL num_in_progress pointer"
      else if decide (NULL = op_failed)
      then HGOTO_ERROR H5E_ARGS H5E_BADVALUE FAIL "NULL op_failed pointer"
      else
        do r <- H5ES__wait fuel es_id es timeout num_in_progress op_failed;
        if r <? 0
        then HGOTO_ERROR H5E_EVENTSET H5E_CANTWAIT FAIL "can't wait on operations"
        else ret SUCCEED
  end.

(** ** The error-info extractor *)

Definition mk_err_info (ev : H5ES_event_t) (stk : list string) : H5ES_err_info_t :=
  mkInfo (ev_api_name ev) (ev_app_file ev) (ev_app_func ev) (ev_app_line ev)
         (ev_app_version ev) (ev_counter ev) (ev_timestamp ev) (ev_status ev) stk.

Record drain_result := mkDrain {
  dr_ok : bool;
  dr_rest : list H5ES_event_t;
  dr_world : world;
  dr_mem : gmap Z value;
  dr_cleared : Z
}.

(** Modelled from the spec: the walk of the extractor (section 4.5), which
    is not among the sources.  The failed list is walked in insertion order
    while entries of the caller's array are left; for each record the
    diagnostics are taken from its token and written with the record's
    fields to the next entry, then the record is unlinked and freed.  When
    the diagnostics of a record cannot be had the walk ends there. *)
Fixpoint drain (max : nat) (evs : list H5ES_event_t) (buf : Z) (w : world)
    (m : gmap Z value) (cleared : Z) : drain_result :=
  match max, evs with
  | S max', ev :: rest =>
      match rt_snapshot RT (ev_token ev) (rt w) with
      | None => mkDrain false evs w m cleared
      | Some stk =>
          drain max' rest (buf + 1) (async_release (ev_token ev) w)
                (<[buf := VErrInfo (mk_err_info ev stk)]> m) (cleared + 1)
      end
  | _, _ => mkDrain true evs w m cleared
  end.

(** Modelled from the spec: [H5ES__get_err_info] (section 4.5), which is not
    among the sources.  [cleared] is the number of records drained; the error
    flag is cleared when [cleared] equals the number of failed records
    before, is positive, and no failed record remains. *)
Definition H5ES__get_err_info (es_id : hid_t) (es : H5ES_t) (num_err_info : Z)
    (err_info num_cleared : pointer) : M herr_t :=
  match err_info with
  | NULL => λ _, Fault
  | Ptr buf =>
      do s <- get_state;
      let before := H5ES__list_count (failed es) in
      let d := drain (Z.to_nat num_err_info) (failed es) buf (wld s) (mem s) 0 in
      let flag :=
        if (dr_cleared d =? before) && (0 <? dr_cleared d)
           && (H5ES__list_count (dr_rest d) =? 0)
        then false else err_occurred es in
      run put_state (set_wld (dr_world d) (set_mem (dr_mem d) s));
      run update_es es_id (mkES (active es) (dr_rest d) (op_counter es) flag);
      if dr_ok d
      then run store num_cleared (VSize (dr_cleared d)); ret SUCCEED
      else ret FAIL
  end.

Definition H5ESget_err_info (es_id : hid_t) (num_err_info : Z)
    (err_info num_cleared : pointer) : M herr_t :=
  do es <- H5I_object_verify es_id H5I_EVENTSET;
  match es with
  | None => HGOTO_ERROR H5E_ARGS H5E_BADTYPE FAIL "invalid event set identifier"
  | Some es =>
      if decide (0 = num_err_info)
      then HGOTO_ERROR H5E_ARGS H5E_BADVALUE FAIL "err_info array size is 0"
      else if decide (NULL = err_info)
      then HGOTO_ERROR H5E_ARGS H5E_BADVALUE FAIL "NULL err_info array pointer"
      else if decide (NULL = num_cleared)
      then HGOTO_ERROR H5E_ARGS H5E_BADVALUE FAIL "NULL errors cleared pointer"
      else
        do r <- H5ES__get_err_info es_id es num_err_info err_info num_cleared;
        if r <? 0
        then HGOTO_ERROR H5E_EVENTSET H5E_CANTGET FAIL
                         "can't retrieve error info for failed operation(s)"
        else ret SUCCEED
  end.

(** ** Closing *)

(** Modelled from the spec: the close of an event set (section 4.3), which
    is not among the sources: it refuses with BUSY while the active list is
    non-empty; otherwise it releases the failed list and frees the set. *)
Definition H5ES__close (es_id : hid_t) (es : H5ES_t) : M herr_t :=
  if 0 <? H5ES__list_count (active es)
  then HGOTO_ERROR H5E_EVENTSET H5E_BUSY FAIL
                   "can't close event set while unfinished operations are present"
  else
    do s <- get_state;
    run put_state (set_ids (delete es_id (ids s))
                           (set_wld (free_events (failed es) (wld s)) s));
    ret SUCCEED.

(** Modelled from the spec: [H5I_dec_app_ref] belongs to the handle
    registry, which is not among the sources.  An identifier carries the one
    application reference it was registered with and nothing modelled here
    adds another, so the decrement reaches zero and the object is freed: for
    an event set by [H5ES__close], whose refusal leaves the identifier
    registered.  The result is the reference count left, or negative. *)
Definition H5I_dec_app_ref (id : hid_t) : M Z :=
  do s <- get_state;
  match ids s !! id with
  | None => ret (-1)
  | Some (IdOther _) =>
      run put_state (set_ids (delete id (ids s)) s);
      ret 0
  | Some (IdEventSet es) =>
      do r <- H5ES__close id es;
      if r <? 0 then ret (-1) else ret 0
  end.

Definition H5ESclose (es_id : hid_t) : M herr_t :=
  do ty <- H5I_get_type es_id;
  if decide (H5I_EVENTSET ≠ ty)
  then HGOTO_ERROR H5E_ARGS H5E_BADTYPE FAIL "not an event set"
  else
    do r <- H5I_dec_app_ref es_id;
    if r <? 0
    then HGOTO_ERROR H5E_EVENTSET H5E_CANTDEC FAIL
                     "unable to decrement ref count on event set"
    else ret SUCCEED.

End EventSet.

Arguments Done {RT A} a s.
Arguments Fault {RT A}.
Arguments NoFuel {RT A}.
Arguments state : clear implicits.
Arguments world : clear implicits.

(** ** Creation and insertion *)

(** Modelled from the spec: [H5ES__create] is not among the sources; an event
    set is created empty: both lists empty, counter 0, flag false. *)
Definition H5ES__create : H5ES_t := mkES [] [] 0 false.

(** Modelled from the spec: the append of section 4.3, which is not among
    the sources: the record gets the set's operation counter, the counter is
    incremented (it is a [uint64_t]) and the record goes to the tail of the
    active list.  No insert callback is installed. *)
Definition H5ES__insert (es : H5ES_t) (ev : H5ES_event_t) : H5ES_t :=
  mkES (active es
          ++ [set_status H5ES_STATUS_IN_PROGRESS (set_counter (op_counter es) ev)])
       (failed es) (uint64 (op_counter es + 1)) (err_occurred es).

(** The counter the append hands out. *)
Definition assigned_counter (es : H5ES_t) (ev : H5ES_event_t) : option Z :=
  ev_counter <$> last (active (H5ES__insert es ev)).

(** The records [evs] appended one after the other. *)
Fixpoint appends (evs : list H5ES_event_t) (es : H5ES_t) : H5ES_t :=
  match evs with
  | [] => es
  | ev :: rest => appends rest (H5ES__insert es ev)
  end.

(** ** A scripted runtime

    A runtime that answers the k-th poll of a token from a script and takes
    [latency] to answer when it is given the time ([min budget latency]); its
    state is the list of the tokens polled so far. *)

Definition times_polled (tok : token_t) (h : list token_t) : nat :=
  length (filter (λ t, t = tok) h).

Definition scripted (script : token_t → nat → option H5ES_status_t)
    (latency : Z) (diag : token_t → option (list string)) : async_runtime :=
  mkRuntime (list token_t)
            (λ tok budget h,
               (mkReply (script tok (times_polled tok h)) (Z.min budget latency),
                h ++ [tok]))
            (λ tok _, diag tok)
            (λ _ h, h).

Definition mk_op (tok : token_t) (c : Z) (st : H5ES_status_t) : H5ES_event_t :=
  mkEvent c "H5Dwrite" "app.c" "main" 42 "1.13.0" 0 tok st.

Definition init_world (R : async_runtime) (r : rt_state R) : world R :=
  mkWorld r 0 [] [].

(** ** Vocabulary of the statements *)

(** The call pushed the one error [e] and did nothing else. *)
Definition rejected {RT} (st : state RT) (e : H5E_error) : outcome herr_t :=
  Done FAIL (set_err_stack (e :: err_stack st) st).

(** The polls issued between two states, oldest first. *)
Definition polled_by {RT} (st st' : state RT) : list poll_event :=
  drop (length (polls (wld st))) (polls (wld st')).

(** The call failed with an error of kind [K], the one error it pushed, and
    did nothing else. *)
Definition rejected_with {RT} (K : H5E_error → Prop) (st : state RT)
    (o : outcome herr_t) : Prop :=
  ∃ e, K e ∧ o = rejected st e.

(** The call failed and an error of kind [K] is among those it pushed. *)
Definition fails_with {RT} (K : H5E_error → Prop) (st : state RT)
    (o : outcome herr_t) : Prop :=
  ∃ (st' : state RT) pushed e,
    o = Done FAIL st' ∧ err_stack st' = pushed ++ err_stack st ∧
    e ∈ pushed ∧ K e.

(** Two states that differ in the error stack at most. *)
Definition same_but_errors {RT} (st st' : state RT) : Prop :=
  ids st' = ids st ∧ mem st' = mem st ∧ wld st' = wld st.

(** What [H5ESget_err_status] and [H5ESget_err_count] report when asked to
    store their answer in the cell [a]. *)
Definition read_err_status {RT} (id : hid_t) (a : Z) (st : state RT) : option bool :=
  match H5ESget_err_status id (Ptr a) st with
  | Done r st' =>
      if decide (r = SUCCEED)
      then match mem st' !! a with Some (VBool b) => Some b | _ => None end
      else None
  | _ => None
  end.

Definition read_err_count {RT} (id : hid_t) (a : Z) (st : state RT) : option Z :=
  match H5ESget_err_count id (Ptr a) st with
  | Done r st' =>
      if decide (r = SUCCEED)
      then match mem st' !! a with Some (VSize n) => Some n | _ => None end
      else None
  | _ => None
  end.

(** The runtime can deliver the diagnostics of every record of the list. *)
Definition snapshots_ok (RT : async_runtime) (evs : list H5ES_event_t) : Prop :=
  ∀ ev h, ev ∈ evs → is_Some (rt_snapshot RT (ev_token ev) h).

(** What the extractor does to the failed list of [es] given an array of
    [n] entries at [b], and the event set it leaves. *)
Definition extracted {RT} (st : state RT) (id : hid_t) (es : H5ES_t) (n b : Z)
    : drain_result :=
  drain (Z.to_nat n) (failed es) b (wld st) (mem st) 0.

Definition after_extract {RT} (st : state RT) (id : hid_t) (es : H5ES_t) (n b : Z)
    : H5ES_t :=
  let d := extracted st id es n b in
  mkES (active es) (dr_rest d) (op_counter es)
       (if (dr_cleared d =? H5ES__list_count (failed es)) && (0 <? dr_cleared d)
           && (H5ES__list_count (dr_rest d) =? 0)
        then false else err_occurred es).

(** The runtime could not execute this poll. *)
Definition structural_error (e : poll_event) : Prop :=
  pr_status (pe_reply e) = None.

(** The runtime answered this poll with the status [s]. *)
Definition reported (s : H5ES_status_t) (e : poll_event) : Prop :=
  pr_status (pe_reply e) = Some s.

Global Instance structural_error_dec e : Decision (structural_error e).
Proof. unfold structural_error. apply _. Defined.

Global Instance reported_dec s e : Decision (reported s e).
Proof. unfold reported. apply _. Defined.

(** The time a poll took off the budget. *)
Definition poll_cost (e : poll_event) : Z := Z.max 0 (pr_elapsed (pe_reply e)).

(** The time a list of polls took in all. *)
Definition spent (l : list poll_event) : Z :=
  foldr (λ e acc, poll_cost e + acc) 0 l.

(** The budget a poll is given when [used] of the timeout is gone. *)
Definition budget_after (timeout used : Z) : Z :=
  if decide (timeout = H5ES_WAIT_FOREVER) then timeout
  else Z.max 0 (timeout - used).

(** One budget for the whole call: every poll is given the timeout less the
    time taken by all the polls before it, whichever records they were
    for. *)
Fixpoint shared_budget (timeout used : Z) (l : list poll_event) : Prop :=
  match l with
  | [] => True
  | e :: l' =>
      pe_budget e = budget_after timeout used
      ∧ shared_budget timeout (used + poll_cost e) l'
  end.

Global Instance shared_budget_dec timeout l :
  ∀ used, Decision (shared_budget timeout used l).
Proof. induction l as [|e l IH]; simpl; intros used; apply _. Defined.

(** Every operation of the list fails: whenever and however it is polled,
    the runtime reports FAIL or CANCEL for it. *)
Definition all_fail (RT : async_runtime) (evs : list H5ES_event_t) : Prop :=
  ∀ ev b h, ev ∈ evs →
    pr_status (rt_poll RT (ev_token ev) b h).1 = Some H5ES_STATUS_FAIL
    ∨ pr_status (rt_poll RT (ev_token ev) b h).1 = Some H5ES_STATUS_CANCEL.

(** The world a sweep leaves. *)
Definition sweep_world {RT} (r : @sweep_result RT) : world RT :=
  match r with
  | SweepOk _ _ _ w _ _ => w
  | SweepErr _ _ _ w => w
  end.

(** The reading of C7 that fails: every counter an append hands out is
    non-zero. *)
Definition counters_nonzero : Prop :=
  ∀ evs ev c,
    assigned_counter (appends evs H5ES__create) ev = Some c → c ≠ 0.

(** ** Sample runtimes and states *)

Definition rt_mixed : async_runtime :=
  scripted (λ tok _, if decide (tok = 1) then Some H5ES_STATUS_SUCCEED
                     else Some H5ES_STATUS_IN_PROGRESS)
           3 (λ _, Some ["H5Dwrite failed"%string]).

Definition rt_slow : async_runtime :=
  scripted (λ _ _, Some H5ES_STATUS_SUCCEED) 4 (λ _, None).

Definition rt_failing : async_runtime :=
  scripted (λ _ _, Some H5ES_STATUS_FAIL) 3 (λ _, Some ["H5Dwrite failed"%string]).

Definition sample_es (act fl : list H5ES_event_t) (flag : bool) : H5ES_t :=
  mkES act fl (Z.of_nat (length act + length fl)) flag.

Definition sample_state (R : async_runtime) (r : rt_state R) (es : H5ES_t)
    : state R :=
  mkState {[ 7 := IdEventSet es; 8 := IdOther H5I_DATASET ]} ∅ []
          (init_world R r).

Definition two_active : H5ES_t :=
  sample_es [mk_op 1 0 H5ES_STATUS_IN_PROGRESS; mk_op 2 1 H5ES_STATUS_IN_PROGRESS]
            [] false.

Definition three_failed : H5ES_t :=
  sample_es [] [mk_op 1 0 H5ES_STATUS_FAIL; mk_op 2 1 H5ES_STATUS_FAIL;
                mk_op 3 2 H5ES_STATUS_CANCEL] true.

(** * The subfiling test (testpar/t_psubfile.c)

    The utility routine [slab_set], the selections its two callers ask of
    it, the mapping plan of the virtual dataset, the data pattern written
    and checked, and the flow of [main].  The calls into MPI and into the
    library are not part of the model: the routines are followed as far as
    the values they compute. *)

Module t_psubfile.

(** [hsize_t] is an unsigned 64-bit integer: a cast from [int] and every
    product wrap; an unsigned division by zero has no result. *)
Definition hsize_t := Z.
Definition to_hsize (z : Z) : hsize_t := uint64 z.
Definition hmul (a b : hsize_t) : hsize_t := uint64 (a * b).
Definition hadd (a b : hsize_t) : hsize_t := uint64 (a + b).
Definition hdiv (a b : hsize_t) : option hsize_t :=
  if decide (b = 0) then None else Some (a / b).

Definition INT_MAX : Z := 2 ^ 31 - 1.

Definition NFILENAMES : Z := 4.
Definition RANK_ELEMENTS : Z := 100.

Definition FILENAMES : list (option string) :=
  [Some "subfile_a"; Some "subfile_b"; Some "subfile_c"; Some "subfile_d"; None].
Definition DSETNAMES : list (option string) :=
  [Some "A"; Some "B"; Some "C"; Some "D"; None].
Definition SRC_FILE : list string :=
  ["subfile_a.h5"; "subfile_b.h5"; "subfile_c.h5"; "subfile_d.h5"].
Definition SRC_DATASET : list string := ["A"; "B"; "C"].

(** Hyperslab layout styles *)
Definition BYROW : Z := 1.
Definition BYCOL : Z := 2.
Definition ZROW : Z := 3.
Definition ZCOL : Z := 4.

(** The four out-arrays of [slab_set], two entries each. *)
Record slab := mkSlab {
  start0 : hsize_t; start1 : hsize_t;
  count0 : hsize_t; count1 : hsize_t;
  stride0 : hsize_t; stride1 : hsize_t;
  block0 : hsize_t; block1 : hsize_t
}.

Global Instance slab_eq_dec : EqDecision slab.
Proof. solve_decision. Defined.

(** [slab_set]: the globals [mpi_rank] and [mpi_size] are arguments; the
    result is [None] when a division by zero is evaluated. *)
Definition slab_set (mpi_rank mpi_size : Z) (dim0 dim1 : hsize_t) (mode : Z)
    : option slab :=
  if decide (mode = BYROW) then
    b0 ← hdiv dim0 (to_hsize mpi_size);
    Some {| block0 := b0; block1 := dim1;
            stride0 := b0; stride1 := dim1;
            count0 := 1; count1 := 1;
            start0 := hmul (to_hsize mpi_rank) b0; start1 := 0 |}
  else if decide (mode = BYCOL) then
    b1 ← hdiv dim1 (to_hsize mpi_size);
    Some {| block0 := dim0; block1 := b1;
            stride0 := dim0; stride1 := b1;
            count0 := 1; count1 := 1;
            start0 := 0; start1 := hmul (to_hsize mpi_rank) b1 |}
  else if decide (mode = ZROW) then
    b0 ← (if decide (mpi_rank ≠ 0) then hdiv dim0 (to_hsize mpi_size)
          else Some 0);
    Some {| block0 := b0; block1 := dim1;
            stride0 := (if decide (mpi_rank ≠ 0) then b0 else 1);
            stride1 := dim1;
            count0 := 1; count1 := 1;
            start0 := (if decide (mpi_rank ≠ 0)
                       then hmul (to_hsize mpi_rank) b0 else 0);
            start1 := 0 |}
  else if decide (mode = ZCOL) then
    b1 ← (if decide (mpi_rank ≠ 0) then hdiv dim1 (to_hsize mpi_size)
          else Some 0);
    Some {| block0 := dim0; block1 := b1;
            stride0 := dim0;
            stride1 := (if decide (mpi_rank ≠ 0) then b1 else 1);
            count0 := 1; count1 := 1;
            start0 := 0;
            start1 := (if decide (mpi_rank ≠ 0)
                       then hmul (to_hsize mpi_rank) b1 else 0) |}
  else
    Some {| block0 := dim0; block1 := dim1;
            stride0 := dim0; stride1 := dim1;
            count0 := 1; count1 := 1;
            start0 := 0; start1 := 0 |}.

(** The rows and the columns a slab selects ([count] is 1 in both
    dimensions), and the number of elements, as [slab_set] prints it. *)
Definition selects_row (s : slab) (x : Z) : Prop :=
  start0 s ≤ x < start0 s + block0 s.
Definition selects_col (s : slab) (y : Z) : Prop :=
  start1 s ≤ y < start1 s + block1 s.
Definition datapoints (s : slab) : hsize_t :=
  hmul (hmul (hmul (block0 s) (block1 s)) (count0 s)) (count1 s).

(** A slab with its two dimensions exchanged. *)
Definition transpose (s : slab) : slab :=
  {| start0 := start1 s; start1 := start0 s;
     count0 := count1 s; count1 := count0 s;
     stride0 := stride1 s; stride1 := stride0 s;
     block0 := block1 s; block1 := block0 s |}.

(** ** The selections of the two callers *)

(** [independent_read_vds]: the virtual dataset has [mpi_size] rows of
    [RANK_ELEMENTS] columns and is divided by rows. *)
Definition independent_read_vds_selection (mpi_rank mpi_size : Z) : option slab :=
  slab_set mpi_rank mpi_size (to_hsize mpi_size) RANK_ELEMENTS BYROW.

(** The read buffer [rdata] of [independent_read_vds] has 8 rows. *)
Definition rdata_capacity : Z := 8 * RANK_ELEMENTS.

(** [generate_test_files]: a source dataset has 2 rows, or 1 when the group
    has a single process, and is divided by rows among the group. *)
Definition srcspace_dims0 (group_size : Z) : hsize_t :=
  if decide (group_size = 1) then 1 else 2.

Definition generate_test_files_selection (group_rank group_size : Z)
    : option slab :=
  slab_set group_rank group_size (srcspace_dims0 group_size) RANK_ELEMENTS BYROW.

(** The memory space of [generate_test_files] is [{1, RANK_ELEMENTS}]. *)
Definition memspace_elements : Z := 1 * RANK_ELEMENTS.

(** ** The data written and checked

    [int] arithmetic is followed on [Z]; the statements keep the values
    within the range of [int]. *)

(** [generate_test_files]: [written[i] = start_value + i] with
    [start_value = orig_size * mpi_global_rank]. *)
Definition generate_test_files_data (mpi_global_rank : Z) : list Z :=
  let start_value := RANK_ELEMENTS * mpi_global_rank in
  (λ i, start_value + i) <$> seqZ 0 RANK_ELEMENTS.

(** The checking loops: [n] times, compare [rdata[k++]] with [expected++]
    and count the differences.  A cell outside [rdata] reads as [None]. *)
Fixpoint count_failures (n : nat) (k : nat) (expected : Z) (rdata : list Z)
    (local_failure : Z) : Z :=
  match n with
  | O => local_failure
  | S n' =>
      count_failures n' (S k) (expected + 1) rdata
        (if decide (rdata !! k ≠ Some expected)
         then local_failure + 1 else local_failure)
  end.

(** [independent_read_vds]: [expected = 100 * mpi_rank], 100 cells of
    [rdata[0]]. *)
Definition independent_read_vds_failures (mpi_rank : Z) (rdata0 : list Z) : Z :=
  count_failures 100 0 (100 * mpi_rank) rdata0 0.

(** [generate_vds_container]: the two nested loops of the validation check;
    the whole dataset, [vdsdims[0]] rows of [vdsdims[1]] cells, is expected
    to hold 0, 1, 2, ... *)
Fixpoint vds_rows_failures (rows : nat) (cols : nat) (k : nat) (expected : Z)
    (rdata : list Z) (local_failure : Z) : Z :=
  match rows with
  | O => local_failure
  | S rows' =>
      vds_rows_failures rows' cols (k + cols) (expected + Z.of_nat cols) rdata
        (count_failures cols k expected rdata local_failure)
  end.

(** [local_failure] of [generate_vds_container] after the validation check:
    only the process of global rank 0 runs the loops, on every other process
    the count stays at the 0 it was initialised with. *)
Definition generate_vds_container_failures (mpi_global_rank group_size : Z)
    (rdata : list Z) : Z :=
  let local_failure := 0 in
  if decide (mpi_global_rank = 0)
  then vds_rows_failures (Z.to_nat group_size) (Z.to_nat RANK_ELEMENTS) 0 0
                         rdata local_failure
  else local_failure.

(** ** The mappings of the virtual dataset *)

(** [a[i]]; outside the array there is nothing to read. *)
Definition array_get {A} (a : list A) (i : Z) : option A :=
  if decide (0 ≤ i) then a !! Z.to_nat i else None.

(** A dataspace: its dimensions and the block selected in it. *)
Record space := mkSpace {
  sp_dims : hsize_t * hsize_t;
  sp_start : hsize_t * hsize_t;
  sp_block : hsize_t * hsize_t
}.

(** One call of [H5Pset_virtual]: the block selected in the virtual
    dataspace, the names read from [SRC_FILE] and [SRC_DATASET], and the
    source dataspace. *)
Record vds_mapping := mkMapping {
  vm_start : hsize_t * hsize_t;
  vm_block : hsize_t * hsize_t;
  vm_file : option string;
  vm_dset : option string;
  vm_src : space
}.

(** [src_space]: 2 x 100 with the block at (0,0) of 2 x 100 selected;
    [odd_space]: 1 x 100, all of it. *)
Definition src_space : space := mkSpace (2, RANK_ELEMENTS) (0, 0) (2, 100).
Definition odd_space : space := mkSpace (1, RANK_ELEMENTS) (0, 0) (1, RANK_ELEMENTS).

(** The loop [for (i = 0; i < n_groups; i++)]: [todo] iterations are left;
    the result carries [i] and [start[0]] as the loop leaves them. *)
Fixpoint vds_loop (todo : nat) (i : Z) (start_0 : hsize_t)
    : Z * hsize_t * list vds_mapping :=
  match todo with
  | O => (i, start_0, [])
  | S todo' =>
      let start_0' := hmul (to_hsize i) 2 in
      let m := mkMapping (start_0', 0) (2, 100)
                         (array_get SRC_FILE i) (array_get SRC_DATASET i)
                         src_space in
      let '(i', s', ms) := vds_loop todo' (i + 1) start_0' in
      (i', s', m :: ms)
  end.

(** [generate_vds_container]: the calls of [H5Pset_virtual], in order. *)
Definition generate_vds_container_mappings (group_size : Z) : list vds_mapping :=
  let n_groups := Z.quot group_size 2 in
  let '(i, start_0, ms) := vds_loop (Z.to_nat n_groups) 0 0 in
  if decide (Z.rem group_size 2 ≠ 0)
  then ms ++ [mkMapping (hadd start_0 2, 0) (1, 100)
                        (array_get SRC_FILE i) (array_get SRC_DATASET i)
                        odd_space]
  else ms.

(** The rows of the virtual dataset a mapping covers, and the numbers of
    elements selected on its two sides. *)
Definition vm_rows (m : vds_mapping) : list Z :=
  seqZ (vm_start m).1 (vm_block m).1.
Definition vm_elements (m : vds_mapping) : Z :=
  (vm_block m).1 * (vm_block m).2.
Definition src_elements (m : vds_mapping) : Z :=
  (sp_block (vm_src m)).1 * (sp_block (vm_src m)).2.

(** ** The flow of [main] *)

Inductive stage :=
| StageGenerateTestFiles (group_id : Z)
| StageGenerateVdsContainer
| StageIndependentReadVds.

Record run := mkRun {
  stages : list stage;
  nerrs : Z;
  exit_status : Z
}.

Definition EXIT_SUCCESS : Z := 0.
Definition EXIT_FAILURE : Z := 1.

Definition finish (ran : list stage) (nerrs : Z) : run :=
  mkRun ran nerrs (if decide (nerrs > 0) then EXIT_FAILURE else EXIT_SUCCESS).

(** [main], once MPI is up: [gen], [vds] and [rd] are what the three test
    routines return when they are called. *)
Definition main (mpi_global_rank mpi_global_size : Z) (gen : Z → Z) (vds rd : Z)
    : run :=
  let mpi_rank := mpi_global_rank in
  let mpi_size := mpi_global_size in
  if decide (mpi_size < 4 ∨ mpi_size > 6) then finish [] (0 + 1)
  else
    let which_group := Z.quot mpi_rank 2 in
    let nerrs := 0 + gen which_group in
    if decide (nerrs > 0) then finish [StageGenerateTestFiles which_group] nerrs
    else
      let nerrs := nerrs + vds in
      if decide (nerrs > 0)
      then finish [StageGenerateTestFiles which_group; StageGenerateVdsContainer]
                  nerrs
      else
        finish [StageGenerateTestFiles which_group; StageGenerateVdsContainer;
                StageIndependentReadVds] (nerrs + rd).

End t_psubfile.

(** ** Creating an event set *)

Definition H5I_INVALID_HID : hid_t := -1.

(** [H5EScreate]: [H5ES__create] and [H5I_register] are not among the
    sources; what they do is left open: [es_create] yields the new event set
    or NULL, [id_register] the new identifier or a negative value. *)
Definition H5EScreate {RT : async_runtime} (es_create : @M RT (option H5ES_t))
    (id_register : H5I_type_t → H5ES_t → bool → @M RT hid_t) : @M RT hid_t :=
  bind es_create (λ es,
    match es with
    | None =>
        HGOTO_ERROR H5E_EVENTSET H5E_CANTCREATE H5I_INVALID_HID
                    "can't create event set"
    | Some es =>
        bind (id_register H5I_EVENTSET es true) (λ ret_value,
          if ret_value <? 0
          then HGOTO_ERROR H5E_EVENTSET H5E_CANTREGISTER H5I_INVALID_HID
                           "can't register event set"
          else ret ret_value)
    end).


(** ** Vocabulary for the read-only accessors *)

(** The call completed and read only: the registry and the runtime are as
    before, no cell of the caller's memory but [a] changed, the call
    succeeded exactly when the identifier names an event set, a successful
    call pushed no error and a failed one returned [FAIL] and stored
    nothing. *)
Definition reads_only {RT} (st : state RT) (id : hid_t) (a : Z)
    (o : outcome herr_t) : Prop :=
  ∃ (r : herr_t) (st' : state RT),
    o = Done r st'
    ∧ ids st' = ids st ∧ wld st' = wld st
    ∧ (∀ b, b ≠ a → mem st' !! b = mem st !! b)
    ∧ (r = SUCCEED ↔ is_Some (event_set_of id st))
    ∧ (r = SUCCEED → err_stack st' = err_stack st)
    ∧ (r ≠ SUCCEED → r = FAIL ∧ mem st' = mem st).

(** * Identifier and argument checks *)

Section Checks.

Context {RT : async_runtime}.
Implicit Types (st : state RT) (id : hid_t) (p : pointer).

Lemma verify_none st id :
  event_set_of id st = None →
  H5I_object_verify id H5I_EVENTSET st = Done None st.
Proof.
  unfold event_set_of, H5I_object_verify.
  destruct (ids st !! id) as [[es|t]|]; [discriminate|done|done].
Qed.

Lemma verify_some st id es :
  event_set_of id st = Some es →
  H5I_object_verify id H5I_EVENTSET st = Done (Some es) st.
Proof.
  unfold event_set_of, H5I_object_verify.
  destruct (ids st !! id) as [[es'|t]|]; intros [= ->]; by rewrite decide_True.
Qed.

Lemma get_type_none st id :
  event_set_of id st = None →
  ∃ ty, H5I_get_type id st = Done ty st ∧ H5I_EVENTSET ≠ ty.
Proof.
  unfold event_set_of, H5I_get_type.
  destruct (ids st !! id) as [[es|t]|]; [discriminate|..]; eauto.
Qed.

Lemma H5ESwait_rejects st fuel id timeout (num_in_progress op_failed : pointer) :
  event_set_of id st = None ∨ num_in_progress = NULL ∨ op_failed = NULL →
  ∃ e, H5ESwait fuel id timeout num_in_progress op_failed st = rejected st e
       ∧ (event_set_of id st = None → BAD_HANDLE e)
       ∧ (event_set_of id st ≠ None → BAD_VALUE e).
Proof.
  intros Hbad. unfold H5ESwait, bind.
  destruct (event_set_of id st) as [es|] eqn:Hid.
  - rewrite (verify_some _ _ _ Hid).
    destruct Hbad as [?|[->| ->]]; [done|..].
    + rewrite decide_True by done. eexists. by split_and!.
    + destruct (decide (NULL = num_in_progress)); [eexists; by split_and!|].
      rewrite decide_True by done. eexists. by split_and!.
  - rewrite (verify_none _ _ Hid). eexists. by split_and!.
Qed.

Lemma polled_by_same_world st st' : wld st' = wld st → polled_by st st' = [].
Proof. intros H. unfold polled_by. rewrite H. apply drop_all. Qed.

End Checks.

(** C8: every public operation given an identifier that is not an event set
    fails with BAD_HANDLE, the one error it pushes, and changes nothing
    else. *)
Theorem bad_handle_rejected {RT : async_runtime} (st : state RT) (id : hid_t) :
  event_set_of id st = None →
  (∀ p, rejected_with BAD_HANDLE st (H5ESget_count id p st)) ∧
  (∀ p, rejected_with BAD_HANDLE st (H5ESget_op_counter id p st)) ∧
  (∀ fuel timeout p q,
     rejected_with BAD_HANDLE st (H5ESwait fuel id timeout p q st)) ∧
  (∀ p, rejected_with BAD_HANDLE st (H5ESget_err_status id p st)) ∧
  (∀ p, rejected_with BAD_HANDLE st (H5ESget_err_count id p st)) ∧
  (∀ n p q, rejected_with BAD_HANDLE st (H5ESget_err_info id n p q st)) ∧
  rejected_with BAD_HANDLE st (H5ESclose id st).
Proof.
  intros Hid. pose proof (verify_none st id Hid) as Hv.
  destruct (get_type_none st id Hid) as (ty & Hty & Hne).
  unfold H5ESget_count, H5ESget_op_counter, H5ESwait, H5ESget_err_status,
    H5ESget_err_count, H5ESget_err_info, H5ESclose, bind.
  rewrite Hv, Hty, (decide_True _ _ Hne).
  repeat split; intros; eexists; (split; [|reflexivity]); done.
Qed.

(** C9: [H5ESwait] checks its arguments before the wait engine runs: with an
    identifier that is not an event set or a NULL out-pointer it fails having
    pushed one error (BAD_HANDLE for the identifier, BAD_VALUE for a
    pointer) and polled nothing; the registry (hence the event set's lists,
    counter and flag), the caller's memory and the runtime are as before. *)
Theorem wait_argument_errors {RT : async_runtime} (st : state RT) (fuel : nat)
    (id : hid_t) (timeout : Z) (num_in_progress op_failed : pointer) :
  event_set_of id st = None ∨ num_in_progress = NULL ∨ op_failed = NULL →
  ∃ e st',
    H5ESwait fuel id timeout num_in_progress op_failed st = Done FAIL st' ∧
    st' = set_err_stack (e :: err_stack st) st ∧
    (event_set_of id st = None → BAD_HANDLE e) ∧
    (event_set_of id st ≠ None → BAD_VALUE e) ∧
    polled_by st st' = [] ∧
    wld st' = wld st ∧
    event_set_of id st' = event_set_of id st ∧
    ids st' = ids st ∧ mem st' = mem st.
Proof.
  intros Hbad.
  destruct (H5ESwait_rejects st fuel id timeout _ _ Hbad) as (e & He & Hh & Hv).
  exists e, (set_err_stack (e :: err_stack st) st).
  split; [exact He|]. split; [done|]. split; [exact Hh|]. split; [exact Hv|].
  split; [by apply polled_by_same_world|done].
Qed.

(** C10: the read-only accessors take a NULL out-pointer for "do not
    report": given an event-set identifier each returns success, stores
    nothing and leaves the whole state as it was (in particular it does not
    fault on the NULL pointer). *)
Theorem accessors_null_out_pointer {RT : async_runtime} (st : state RT)
    (id : hid_t) (es : H5ES_t) :
  event_set_of id st = Some es →
  H5ESget_count id NULL st = Done SUCCEED st ∧
  H5ESget_op_counter id NULL st = Done SUCCEED st ∧
  H5ESget_err_status id NULL st = Done SUCCEED st ∧
  H5ESget_err_count id NULL st = Done SUCCEED st.
Proof.
  intros Hid. pose proof (verify_some st id es Hid) as Hv.
  unfold H5ESget_count, H5ESget_op_counter, H5ESget_err_status,
    H5ESget_err_count, bind.
  rewrite Hv. by repeat split.
Qed.

(** C5: [H5ESget_err_count] stores the length of the failed list when the
    error flag is set and 0 when it is clear, and returns success; nothing
    but the caller's cell changes: no operation is polled or waited on and
    the event set is as before. *)
Theorem err_count_value {RT : async_runtime} (st : state RT) (id : hid_t)
    (es : H5ES_t) (a : Z) :
  event_set_of id st = Some es →
  H5ESget_err_count id (Ptr a) st
  = Done SUCCEED
      (set_mem (<[a := VSize (if err_occurred es
                              then Z.of_nat (length (failed es)) else 0)]>
                  (mem st)) st)
  ∧ ∀ st', H5ESget_err_count id (Ptr a) st = Done SUCCEED st' →
      polled_by st st' = [] ∧ wld st' = wld st ∧ ids st' = ids st.
Proof.
  intros Hid. pose proof (verify_some st id es Hid) as Hv.
  unfold H5ESget_err_count, bind. rewrite Hv. simpl.
  split.
  - unfold store, ret, H5ES__list_count. by destruct (err_occurred es).
  - intros st' H. unfold polled_by.
    destruct (err_occurred es); unfold store, ret in H; injection H as <-;
      simpl; by rewrite drop_all.
Qed.

(** C4: on an event set, [H5ESget_err_info] given an array of size 0, a NULL
    array or a NULL count pointer fails with BAD_VALUE, the one error it
    pushes, and does nothing else: no failed record is drained, nothing is
    asked of the runtime, and the event set, the registry and the caller's
    memory are as before. *)
Theorem get_err_info_bad_value {RT : async_runtime} (st : state RT) (id : hid_t)
    (es : H5ES_t) (num_err_info : Z) (err_info num_cleared : pointer) :
  event_set_of id st = Some es →
  num_err_info = 0 ∨ err_info = NULL ∨ num_cleared = NULL →
  rejected_with BAD_VALUE st
    (H5ESget_err_info id num_err_info err_info num_cleared st) ∧
  ∃ st',
    H5ESget_err_info id num_err_info err_info num_cleared st = Done FAIL st' ∧
    event_set_of id st' = Some es ∧
    same_but_errors st st' ∧
    released (wld st') = released (wld st).
Proof.
  intros Hid Hbad.
  assert (rejected_with BAD_VALUE st
            (H5ESget_err_info id num_err_info err_info num_cleared st))
    as Hrej.
  { unfold H5ESget_err_info, bind. rewrite (verify_some _ _ _ Hid).
    destruct (decide (0 = num_err_info));
      [eexists; split; [|reflexivity]; done|].
    destruct (decide (NULL = err_info));
      [eexists; split; [|reflexivity]; done|].
    destruct (decide (NULL = num_cleared));
      [eexists; split; [|reflexivity]; done|].
    destruct Hbad as [?|[?|?]]; congruence. }
  split; [exact Hrej|].
  destruct Hrej as (e & _ & ->).
  eexists. split; [reflexivity|].
  split; [|done]. unfold event_set_of in *. exact Hid.
Qed.

(** * Closing *)

Section Close.

Context {RT : async_runtime}.
Implicit Types (st : state RT) (w : world RT).

Lemma free_events_released evs w :
  released (free_events evs w) = released w ++ map ev_token evs.
Proof.
  unfold free_events. revert w.
  induction evs as [|ev evs IH]; intros w; simpl.
  - by rewrite app_nil_r.
  - rewrite IH. simpl. by rewrite <- app_assoc.
Qed.

Lemma free_events_polls evs w : polls (free_events evs w) = polls w.
Proof.
  unfold free_events. revert w.
  induction evs as [|ev evs IH]; intros w; simpl; [done|by rewrite IH].
Qed.

Lemma list_count_pos (evs : list H5ES_event_t) :
  (0 <? H5ES__list_count evs) = bool_decide (evs ≠ []).
Proof.
  destruct evs; [done|].
  rewrite bool_decide_true by done.
  apply Z.ltb_lt. unfold H5ES__list_count. simpl. lia.
Qed.

Lemma H5ES__close_busy st id es :
  active es ≠ [] →
  H5ES__close id es st
  = HGOTO_ERROR H5E_EVENTSET H5E_BUSY FAIL
      "can't close event set while unfinished operations are present" st.
Proof.
  intros H. unfold H5ES__close.
  by rewrite list_count_pos, bool_decide_true.
Qed.

Lemma H5ES__close_idle st id es :
  active es = [] →
  H5ES__close id es st
  = Done SUCCEED (set_ids (delete id (ids st))
                          (set_wld (free_events (failed es) (wld st)) st)).
Proof.
  intros H. unfold H5ES__close.
  rewrite list_count_pos, bool_decide_false by (by intros ?). done.
Qed.

Lemma H5I_dec_app_ref_es st id es :
  ids st !! id = Some (IdEventSet es) →
  H5I_dec_app_ref id st
  = bind (H5ES__close id es) (λ r, if r <? 0 then ret (-1) else ret 0) st.
Proof. intros H. unfold H5I_dec_app_ref, bind at 1, get_state. by rewrite H. Qed.

Lemma lookup_event_set st id es :
  event_set_of id st = Some es → ids st !! id = Some (IdEventSet es).
Proof.
  unfold event_set_of. destruct (ids st !! id) as [[?|?]|]; congruence.
Qed.

Lemma H5ESclose_unfold st id es :
  event_set_of id st = Some es →
  H5ESclose id st
  = bind (H5ES__close id es)
      (λ r, if r <? 0
            then HGOTO_ERROR H5E_EVENTSET H5E_CANTDEC FAIL
                   "unable to decrement ref count on event set"
            else ret SUCCEED) st.
Proof.
  intros Hl%lookup_event_set.
  unfold H5ESclose, bind at 1, H5I_get_type. rewrite Hl.
  rewrite decide_False by (by intros ?).
  unfold bind at 1. rewrite (H5I_dec_app_ref_es _ _ _ Hl). unfold bind.
  destruct (H5ES__close id es st) as [r s'| |]; [|done..].
  unfold ret. by destruct (r <? 0).
Qed.

End Close.

(** C3: on an event set with a non-empty active list [H5ESclose] fails with
    BUSY among the errors it pushes and leaves the registry (so the set and
    all its records), the caller's memory and the runtime unchanged; on one
    with an empty active list it succeeds, gives the token of every record of
    the failed list back to the runtime and removes the set from the
    registry. *)
Theorem close_discipline {RT : async_runtime} (st : state RT) (id : hid_t)
    (es : H5ES_t) :
  event_set_of id st = Some es →
  (active es ≠ [] →
     fails_with BUSY st (H5ESclose id st) ∧
     ∃ st', H5ESclose id st = Done FAIL st' ∧ same_but_errors st st' ∧
            event_set_of id st' = Some es) ∧
  (active es = [] →
     ∃ st', H5ESclose id st = Done SUCCEED st' ∧
            event_set_of id st' = None ∧
            ids st' = delete id (ids st) ∧
            released (wld st') = released (wld st) ++ map ev_token (failed es) ∧
            polled_by st st' = [] ∧
            mem st' = mem st ∧ err_stack st' = err_stack st).
Proof.
  intros Hid.
  pose proof (lookup_event_set _ _ _ Hid) as Hl.
  rewrite (H5ESclose_unfold _ _ _ Hid). unfold bind.
  split; intros Hact.
  - rewrite H5ES__close_busy by done. simpl. split.
    + eexists _, [_; _], (mkErr H5E_EVENTSET H5E_BUSY _). simpl.
      split; [reflexivity|]. split; [reflexivity|].
      split; [|done]. apply list_elem_of_further, list_elem_of_here.
    + eexists. split; [reflexivity|]. split; [done|].
      unfold event_set_of. simpl. by rewrite Hl.
  - rewrite H5ES__close_idle by done. simpl.
    eexists. split; [reflexivity|]. simpl.
    unfold event_set_of, polled_by. simpl.
    rewrite lookup_delete_eq, free_events_released, free_events_polls, drop_all.
    done.
Qed.

(** * Operation counters *)

Section Counters.

Lemma uint64_small z : 0 ≤ z < UINT64_MOD → uint64 z = z.
Proof. intros H. unfold uint64. by apply Z.mod_small. Qed.

Lemma insert_active es ev :
  map ev_counter (active (H5ES__insert es ev))
  = map ev_counter (active es) ++ [op_counter es].
Proof. unfold H5ES__insert. simpl. by rewrite map_app. Qed.

Lemma assigned_counter_next es ev : assigned_counter es ev = Some (op_counter es).
Proof. unfold assigned_counter, H5ES__insert. simpl. by rewrite last_snoc. Qed.

Lemma appends_counters evs : ∀ es,
  0 ≤ op_counter es →
  op_counter es + Z.of_nat (length evs) ≤ UINT64_MOD →
  map ev_counter (active (appends evs es))
  = map ev_counter (active es)
    ++ map (λ k, op_counter es + Z.of_nat k) (seq 0 (length evs)).
Proof.
  induction evs as [|ev rest IH]; intros es H0 Hle; simpl.
  - by rewrite app_nil_r.
  - destruct rest as [|ev' rest'].
    + simpl. rewrite map_app. simpl. by rewrite Z.add_0_r.
    + assert (op_counter (H5ES__insert es ev) = op_counter es + 1) as Hc.
      { unfold H5ES__insert. simpl. apply uint64_small.
        simpl in Hle. lia. }
      rewrite IH.
      * rewrite insert_active, Hc, <- app_assoc. f_equal.
        change (length (ev :: ev' :: rest')) with (S (length (ev' :: rest'))).
        generalize (length (ev' :: rest')). intros n.
        change ([op_counter es] ++ ?l) with (op_counter es :: l).
        change (seq 0 (S n)) with (0%nat :: seq 1 n).
        rewrite <- seq_shift. cbn [map]. rewrite !map_map.
        f_equal; [lia|].
        apply map_ext. intros k. lia.
      * lia.
      * rewrite Hc. simpl in *. lia.
Qed.

Lemma counters_from_zero n : NoDup (map Z.of_nat (seq 0 n)).
Proof.
  apply NoDup_fmap_2; [apply Nat2Z.inj'|apply NoDup_seq].
Qed.

End Counters.

Lemma lookup_map_seq (f : nat → Z) n : ∀ s i c,
  map f (seq s n) !! i = Some c → c = f (s + i)%nat ∧ (i < n)%nat.
Proof.
  induction n as [|n IH]; intros s i c; simpl; [done|].
  destruct i as [|i]; simpl.
  - intros [= <-]. rewrite Nat.add_0_r. split; [done|lia].
  - intros H. apply IH in H as [-> ?]. split; [f_equal; lia|lia].
Qed.

(** C7, as stated, fails: the first record appended to a new event set is
    given the counter 0. *)
Lemma first_counter_is_zero : ¬ counters_nonzero.
Proof.
  intros H.
  apply (H [] (mk_op 1 0 H5ES_STATUS_IN_PROGRESS) 0); reflexivity.
Qed.

(** C7 (amended): the counters given out by the first 2^64 successive appends
    to a new event set are 0, 1, 2, ... in order: non-negative, strictly
    increasing, contiguous from 0, hence pairwise distinct; and
    [H5ESget_op_counter] stores exactly the counter the next append will
    assign. *)
Theorem counters_contiguous_from_zero {RT : async_runtime} :
  (∀ evs, Z.of_nat (length evs) ≤ UINT64_MOD →
     let cs := map ev_counter (active (appends evs H5ES__create)) in
     cs = map Z.of_nat (seq 0 (length evs)) ∧
     NoDup cs ∧
     (∀ i j ci cj, cs !! i = Some ci → cs !! j = Some cj →
                   (i < j)%nat → 0 ≤ ci < cj)) ∧
  (∀ (st : state RT) id es a ev,
     event_set_of id st = Some es →
     ∃ st', H5ESget_op_counter id (Ptr a) st = Done SUCCEED st' ∧
            mem st' !! a = Some (VUInt64 (op_counter es)) ∧
            event_set_of id st' = Some es ∧
            assigned_counter es ev = Some (op_counter es)).
Proof.
  split.
  - intros evs Hn cs.
    assert (cs = map Z.of_nat (seq 0 (length evs))) as Hcs.
    { subst cs. rewrite appends_counters by (simpl; lia). simpl.
      apply map_ext. intros k. lia. }
    split; [done|]. rewrite Hcs. split; [apply counters_from_zero|].
    intros i j ci cj Hi Hj Hlt.
    apply lookup_map_seq in Hi as [-> _], Hj as [-> _]. lia.
  - intros st id es a ev Hid.
    unfold H5ESget_op_counter, bind. rewrite (verify_some _ _ _ Hid). simpl.
    eexists. split; [reflexivity|]. simpl.
    rewrite lookup_insert_eq, assigned_counter_next.
    split_and!; [done| |done]. exact Hid.
Qed.

(** * The error-info extractor *)

Section Extractor.

Context {RT : async_runtime}.
Implicit Types (st : state RT) (w : world RT).

Lemma drain_spec n : ∀ evs buf w m c,
  let d := drain n evs buf w m c in
  ∃ k : nat,
    (k ≤ n)%nat ∧ (k ≤ length evs)%nat ∧
    dr_cleared d = c + Z.of_nat k ∧
    dr_rest d = drop k evs ∧
    (dr_ok d = true → k = (n `min` length evs)%nat) ∧
    (snapshots_ok RT evs → dr_ok d = true) ∧
    polls (dr_world d) = polls w ∧
    released (dr_world d) = released w ++ map ev_token (take k evs).
Proof.
  induction n as [|n IH]; intros evs buf w m c; simpl.
  - exists 0%nat. simpl. rewrite Z.add_0_r, app_nil_r, drop_0.
    destruct evs; simpl; split_and!; auto; lia.
  - destruct evs as [|ev rest]; simpl.
    { exists 0%nat. simpl. rewrite Z.add_0_r, app_nil_r.
      split_and!; auto; lia. }
    destruct (rt_snapshot RT (ev_token ev) (rt w)) as [stk|] eqn:Hs.
    + destruct (IH rest (buf + 1) (async_release (ev_token ev) w)
                   (<[buf := VErrInfo (mk_err_info ev stk)]> m) (c + 1))
        as (k & ? & ? & Hc & Hr & Hok & Hall & Hp & Hrel).
      exists (S k). rewrite Hc, Hr, Hp, Hrel. simpl.
      rewrite <- app_assoc. simpl.
      split_and!; [lia|lia|lia|done| | |done|done].
      * intros H'. by rewrite (Hok H').
      * intros Ha. apply Hall. intros ev' h Hin. apply Ha. by right.
    + exists 0%nat. simpl. rewrite Z.add_0_r, app_nil_r.
      split_and!; [lia|lia|done|done|done| |done|done].
      intros Ha. destruct (Ha ev (rt w)) as [x Hx]; [by left|congruence].
Qed.

Lemma H5ESget_err_info_run st id es n b c :
  event_set_of id st = Some es → n ≠ 0 →
  let d := extracted st id es n b in
  let st1 := set_ids (<[id := IdEventSet (after_extract st id es n b)]> (ids st))
                     (set_wld (dr_world d) (set_mem (dr_mem d) st)) in
  H5ESget_err_info id n (Ptr b) (Ptr c) st
  = if dr_ok d
    then Done SUCCEED (set_mem (<[c := VSize (dr_cleared d)]> (mem st1)) st1)
    else Done FAIL
           (set_err_stack
              (mkErr H5E_EVENTSET H5E_CANTGET
                     "can't retrieve error info for failed operation(s)"
               :: err_stack st1) st1).
Proof.
  intros Hid Hn. unfold H5ESget_err_info, bind at 1.
  rewrite (verify_some _ _ _ Hid).
  rewrite decide_False by congruence.
  rewrite decide_False by done. rewrite decide_False by done.
  unfold H5ES__get_err_info, bind, get_state, put_state, update_es.
  fold (extracted st id es n b). unfold after_extract.
  destruct (dr_ok (extracted st id es n b)); reflexivity.
Qed.

End Extractor.

Section ExtractorFlag.

Context {RT : async_runtime}.
Implicit Types (st : state RT).

Lemma event_set_of_lookup st id es :
  ids st !! id = Some (IdEventSet es) → event_set_of id st = Some es.
Proof. unfold event_set_of. by intros ->. Qed.

Lemma get_err_info_general st id es n b c :
  event_set_of id st = Some es → n ≠ 0 →
  ∃ r st' es',
    H5ESget_err_info id n (Ptr b) (Ptr c) st = Done r st' ∧
    event_set_of id st' = Some es' ∧
    let cleared := (length (failed es) - length (failed es'))%nat in
    failed es' = drop cleared (failed es) ∧
    active es' = active es ∧ op_counter es' = op_counter es ∧
    (r = SUCCEED →
       mem st' !! c = Some (VSize (Z.of_nat cleared)) ∧
       cleared = (Z.to_nat n `min` length (failed es))%nat) ∧
    (snapshots_ok RT (failed es) → r = SUCCEED) ∧
    (err_occurred es = false → err_occurred es' = false) ∧
    (err_occurred es = true →
       (err_occurred es' = false ↔
          cleared = length (failed es) ∧ (0 < cleared)%nat ∧
          length (failed es') = 0%nat)).
Proof.
  intros Hid Hn.
  pose proof (H5ESget_err_info_run st id es n b c Hid Hn) as Hrun.
  simpl in Hrun.
  destruct (drain_spec (Z.to_nat n) (failed es) b (wld st) (mem st) 0)
    as (k & Hkn & Hkl & Hc & Hr & Hok & Hall & _ & _).
  fold (extracted st id es n b) in Hc, Hr, Hok, Hall.
  assert ((length (failed es) - length (drop k (failed es)))%nat = k) as Hk.
  { rewrite length_drop. lia. }
  assert (err_occurred (after_extract st id es n b)
          = if decide (k = length (failed es) ∧ (0 < k)%nat
                       ∧ length (drop k (failed es)) = 0%nat)
            then false else err_occurred es) as Hflag.
  { unfold after_extract. simpl. rewrite Hc, Hr. unfold H5ES__list_count.
    case_decide as Hd.
    - destruct Hd as (-> & ? & ->).
      replace (0 + _ =? _) with true by (symmetry; apply Z.eqb_eq; lia).
      replace (0 <? _) with true by (symmetry; apply Z.ltb_lt; lia).
      done.
    - destruct (0 + Z.of_nat k =? Z.of_nat (length (failed es))) eqn:E1;
        [|done].
      destruct (0 <? 0 + Z.of_nat k) eqn:E2; [|done].
      destruct (Z.of_nat (length (drop k (failed es))) =? 0) eqn:E3; [|done].
      exfalso. apply Hd.
      apply Z.eqb_eq in E1, E3. apply Z.ltb_lt in E2. lia. }
  assert (failed (after_extract st id es n b) = drop k (failed es)) as Hfl
    by exact Hr.
  destruct (dr_ok (extracted st id es n b)) eqn:Eok.
  - eexists SUCCEED, _, (after_extract st id es n b).
    split; [exact Hrun|].
    split; [apply event_set_of_lookup; simpl; apply lookup_insert_eq|].
    cbv zeta. rewrite Hfl, Hk.
    split_and!; [done|done|done| |done| |].
    + intros _. simpl. rewrite lookup_insert_eq, Hc.
      split; [do 2 f_equal; lia|auto].
    + intros Hf. rewrite Hflag, Hf. by case_decide.
    + intros Hf. rewrite Hflag, Hf. case_decide; split; auto; done.
  - eexists FAIL, _, (after_extract st id es n b).
    split; [exact Hrun|].
    split; [apply event_set_of_lookup; simpl; apply lookup_insert_eq|].
    cbv zeta. rewrite Hfl, Hk.
    split_and!; [done|done|done|done| | |].
    + intros Ha. apply Hall in Ha. congruence.
    + intros Hf. rewrite Hflag, Hf. by case_decide.
    + intros Hf. rewrite Hflag, Hf. case_decide; split; auto; done.
Qed.

End ExtractorFlag.

Section Scenario.

Context {RT : async_runtime}.
Implicit Types (st : state RT).

Lemma read_err_status_es st id es a :
  event_set_of id st = Some es →
  read_err_status id a st = Some (err_occurred es).
Proof.
  intros Hid. unfold read_err_status, H5ESget_err_status, bind.
  rewrite (verify_some _ _ _ Hid). simpl. by rewrite lookup_insert_eq.
Qed.

Lemma read_err_count_es st id es a :
  event_set_of id st = Some es →
  read_err_count id a st
  = Some (if err_occurred es then Z.of_nat (length (failed es)) else 0).
Proof.
  intros Hid. unfold read_err_count, H5ESget_err_count, bind.
  rewrite (verify_some _ _ _ Hid). simpl.
  destruct (err_occurred es); simpl; by rewrite lookup_insert_eq.
Qed.

Lemma partial_drain_scenario st id es a b c r1 r2 r3 :
  event_set_of id st = Some es →
  failed es = [r1; r2; r3] → err_occurred es = true →
  snapshots_ok RT (failed es) →
  ∃ st1 st2,
    H5ESget_err_info id 2 (Ptr b) (Ptr c) st = Done SUCCEED st1 ∧
    mem st1 !! c = Some (VSize 2) ∧
    read_err_status id a st1 = Some true ∧
    read_err_count id a st1 = Some 1 ∧
    H5ESget_err_info id 1 (Ptr b) (Ptr c) st1 = Done SUCCEED st2 ∧
    mem st2 !! c = Some (VSize 1) ∧
    read_err_status id a st2 = Some false ∧
    read_err_count id a st2 = Some 0.
Proof.
  intros Hid Hf He Hs.
  destruct (get_err_info_general st id es 2 b c Hid)
    as (r & st1 & es1 & Hrun1 & Hid1 & Hfl1 & _ & _ & Hsucc1 & Hok1 & _ & Hflag1);
    [done|].
  rewrite (Hok1 Hs) in *. destruct (Hsucc1 eq_refl) as [Hm1 Hc1].
  rewrite Hc1 in Hfl1, Hm1. rewrite Hf in Hfl1, Hc1, Hm1. simpl in Hfl1, Hm1.
  assert (err_occurred es1 = true) as He1.
  { apply not_false_iff_true. intros E.
    apply (Hflag1 He) in E as (E & _). rewrite Hf, Hc1 in E. done. }
  destruct (get_err_info_general st1 id es1 1 b c Hid1)
    as (r' & st2 & es2 & Hrun2 & Hid2 & Hfl2 & _ & _ & Hsucc2 & Hok2 & _ & Hflag2);
    [done|].
  assert (snapshots_ok RT (failed es1)) as Hs1.
  { intros ev h Hin. apply Hs. rewrite Hf. rewrite Hfl1 in Hin.
    apply list_elem_of_further, list_elem_of_further. exact Hin. }
  rewrite (Hok2 Hs1) in *. destruct (Hsucc2 eq_refl) as [Hm2 Hc2].
  rewrite Hc2 in Hfl2, Hm2. rewrite Hfl1 in Hfl2, Hc2, Hm2.
  simpl in Hfl2, Hm2.
  assert (err_occurred es2 = false) as He2.
  { apply (Hflag2 He1). rewrite Hfl2, Hfl1. simpl. lia. }
  exists st1, st2.
  rewrite (read_err_status_es _ _ _ _ Hid1), (read_err_count_es _ _ _ _ Hid1).
  rewrite (read_err_status_es _ _ _ _ Hid2), (read_err_count_es _ _ _ _ Hid2).
  rewrite He1, He2, Hfl1. done.
Qed.

End Scenario.

(** C6: [H5ESget_err_info] with valid arguments always returns; it drains a
    prefix of the failed list and, when the flag was set, clears it exactly
    when the number cleared equals the number of failed records before, is
    positive and no failed record remains, so a partial drain leaves the flag
    set.  With three failed records, draining two reports 2 cleared and
    leaves status TRUE and count 1; draining one more reports 1 cleared and
    leaves status FALSE and count 0. *)
Theorem err_flag_after_drain {RT : async_runtime} (st : state RT) (id : hid_t)
    (es : H5ES_t) (b c : Z) :
  event_set_of id st = Some es →
  (∀ n, n ≠ 0 →
     ∃ r st' es',
       H5ESget_err_info id n (Ptr b) (Ptr c) st = Done r st' ∧
       event_set_of id st' = Some es' ∧
       let cleared := (length (failed es) - length (failed es'))%nat in
       failed es' = drop cleared (failed es) ∧
       (r = SUCCEED → mem st' !! c = Some (VSize (Z.of_nat cleared))) ∧
       (snapshots_ok RT (failed es) → r = SUCCEED) ∧
       (err_occurred es = true →
          (err_occurred es' = false ↔
             cleared = length (failed es) ∧ (0 < cleared)%nat ∧
             length (failed es') = 0%nat) ∧
          (failed es' ≠ [] → err_occurred es' = true))) ∧
  (∀ a r1 r2 r3,
     failed es = [r1; r2; r3] → err_occurred es = true →
     snapshots_ok RT (failed es) →
     ∃ st1 st2,
       H5ESget_err_info id 2 (Ptr b) (Ptr c) st = Done SUCCEED st1 ∧
       mem st1 !! c = Some (VSize 2) ∧
       read_err_status id a st1 = Some true ∧
       read_err_count id a st1 = Some 1 ∧
       H5ESget_err_info id 1 (Ptr b) (Ptr c) st1 = Done SUCCEED st2 ∧
       mem st2 !! c = Some (VSize 1) ∧
       read_err_status id a st2 = Some false ∧
       read_err_count id a st2 = Some 0).
Proof.
  intros Hid. split.
  - intros n Hn.
    destruct (get_err_info_general st id es n b c Hid Hn)
      as (r & st' & es' & Hrun & Hid' & Hfl & _ & _ & Hsucc & Hok & _ & Hflag).
    exists r, st', es'. split; [done|]. split; [done|]. cbv zeta.
    split_and!; [done| |done|].
    + intros Hr. by destruct (Hsucc Hr).
    + intros He. split; [by apply Hflag|].
      intros Hne. apply not_false_iff_true. intros E.
      apply (Hflag He) in E as (_ & _ & E). by destruct (failed es').
  - intros a r1 r2 r3 Hf He Hs. by eapply partial_drain_scenario.
Qed.

(** * The wait engine *)

Section WaitEngine.

Context {RT : async_runtime}.
Implicit Types (st : state RT) (w : world RT).

Lemma spent_nonneg l : 0 ≤ spent l.
Proof.
  induction l as [|e l IH]; simpl; [done|]. unfold poll_cost. lia.
Qed.

Lemma shared_budget_app timeout l1 : ∀ used l2,
  shared_budget timeout used (l1 ++ l2)
  ↔ shared_budget timeout used l1
    ∧ shared_budget timeout (used + spent l1) l2.
Proof.
  induction l1 as [|e l1 IH]; intros used l2; simpl.
  - rewrite Z.add_0_r. tauto.
  - rewrite IH. replace (used + poll_cost e + spent l1)
      with (used + (poll_cost e + spent l1)) by lia. tauto.
Qed.

Lemma shared_budget_zero l : ∀ used,
  0 ≤ used → shared_budget 0 used l → Forall (λ e, pe_budget e = 0) l.
Proof.
  induction l as [|e l IH]; intros used Hu; simpl; [constructor|].
  intros [Hb Hrest]. constructor.
  - rewrite Hb. unfold budget_after. rewrite decide_False by done. lia.
  - apply (IH (used + poll_cost e)); [unfold poll_cost; lia|done].
Qed.

Lemma remaining_as_budget timeout t0 w used :
  clock w = t0 + used →
  remaining_budget timeout t0 w = budget_after timeout used.
Proof.
  intros H. unfold remaining_budget, budget_after. rewrite H.
  case_decide; [done|]. f_equal. lia.
Qed.

Lemma async_poll_trace tok budget w :
  let '(r, w') := async_poll tok budget w in
  polls w' = polls w ++ [mkPoll tok budget r]
  ∧ clock w' = clock w + poll_cost (mkPoll tok budget r)
  ∧ released w' = released w.
Proof.
  unfold async_poll. destruct (rt_poll RT tok budget (rt w)) as [r rt'].
  done.
Qed.

Lemma sweep_trace timeout t0 todo : ∀ kept fl err w af asf used,
  clock w = t0 + used →
  let r := sweep timeout t0 todo kept fl err w af asf in
  ∃ new,
    polls (sweep_world r) = polls w ++ new ∧
    clock (sweep_world r) = t0 + used + spent new ∧
    shared_budget timeout used new ∧
    match r with
    | SweepOk kept' fl' err' w' af' as' =>
        Forall (λ e, ¬ structural_error e) new ∧
        map pe_token new = map ev_token todo ∧
        (length kept' ≤ length kept + length todo)%nat ∧
        (as' = true →
           asf = true
           ∨ ((length kept' < length kept + length todo)%nat
              ∧ Exists (reported H5ES_STATUS_SUCCEED) new))
    | SweepErr _ _ _ _ => Exists structural_error new
    end.
Proof.
  induction todo as [|ev rest IH]; intros kept fl err w af asf used Hclock.
  - exists []. simpl. rewrite app_nil_r, Z.add_0_r.
    split_and!; auto. lia.
  - simpl.
    pose proof (async_poll_trace (ev_token ev)
                  (remaining_budget timeout t0 w) w) as Ht.
    destruct (async_poll (ev_token ev) (remaining_budget timeout t0 w) w)
      as [r w1].
    destruct Ht as (Hp & Hc & _).
    set (e := mkPoll (ev_token ev) (remaining_budget timeout t0 w) r) in *.
    assert (pe_budget e = budget_after timeout used) as Hb.
    { subst e. simpl. by apply remaining_as_budget. }
    assert (clock w1 = t0 + (used + poll_cost e)) as Hc1 by lia.
    destruct (pr_status r) as [s|] eqn:Hs.
    + assert (¬ structural_error e) as Hne.
      { unfold structural_error. subst e. simpl. by rewrite Hs. }
      destruct s.
      * destruct (IH (kept ++ [ev]) fl err w1 af asf _ Hc1)
          as (new & Hp' & Hc' & Hsb & Hm).
        exists (e :: new). rewrite Hp', Hc', Hp, <- app_assoc. simpl.
        split_and!; [done|lia|done|done|].
        destruct (sweep timeout t0 rest (kept ++ [ev]) fl err w1 af asf);
          [|by apply Exists_cons_tl].
        destruct Hm as (Hf & Hmap & Hlen & Hsucc).
        rewrite length_app in Hlen, Hsucc. simpl in Hlen, Hsucc.
        split_and!; [by constructor|by rewrite Hmap|lia|].
        intros Ha. destruct (Hsucc Ha) as [?|[? ?]]; [by left|right].
        split; [lia|by apply Exists_cons_tl].
      * destruct (IH kept fl err (async_release (ev_token ev) w1) af true _ Hc1)
          as (new & Hp' & Hc' & Hsb & Hm).
        exists (e :: new). rewrite Hp', Hc'. simpl.
        rewrite Hp, <- app_assoc. simpl.
        split_and!; [done|lia|done|done|].
        destruct (sweep timeout t0 rest kept fl err
                        (async_release (ev_token ev) w1) af true);
          [|by apply Exists_cons_tl].
        destruct Hm as (Hf & Hmap & Hlen & Hsucc).
        split_and!; [by constructor|by rewrite Hmap|lia|].
        intros _. right. split; [lia|].
        apply Exists_cons_hd. unfold reported. subst e. simpl. exact Hs.
      * destruct (IH kept (fl ++ [set_status H5ES_STATUS_FAIL ev]) true w1
                     true asf _ Hc1)
          as (new & Hp' & Hc' & Hsb & Hm).
        exists (e :: new). rewrite Hp', Hc', Hp, <- app_assoc. simpl.
        split_and!; [done|lia|done|done|].
        destruct (sweep timeout t0 rest kept
                        (fl ++ [set_status H5ES_STATUS_FAIL ev]) true w1 true asf);
          [|by apply Exists_cons_tl].
        destruct Hm as (Hf & Hmap & Hlen & Hsucc).
        split_and!; [by constructor|by rewrite Hmap|lia|].
        intros Ha. destruct (Hsucc Ha) as [?|[? ?]]; [by left|right].
        split; [lia|by apply Exists_cons_tl].
      * destruct (IH kept (fl ++ [set_status H5ES_STATUS_CANCEL ev]) true w1
                     true asf _ Hc1)
          as (new & Hp' & Hc' & Hsb & Hm).
        exists (e :: new). rewrite Hp', Hc', Hp, <- app_assoc. simpl.
        split_and!; [done|lia|done|done|].
        destruct (sweep timeout t0 rest kept
                        (fl ++ [set_status H5ES_STATUS_CANCEL ev]) true w1 true asf);
          [|by apply Exists_cons_tl].
        destruct Hm as (Hf & Hmap & Hlen & Hsucc).
        split_and!; [by constructor|by rewrite Hmap|lia|].
        intros Ha. destruct (Hsucc Ha) as [?|[? ?]]; [by left|right].
        split; [lia|by apply Exists_cons_tl].
    + exists [e]. simpl. rewrite Hp, Z.add_0_r.
      split_and!; [done|lia|done|done|].
      apply Exists_cons_hd. unfold structural_error. subst e. simpl. exact Hs.
Qed.

Lemma wait_loop_trace timeout t0 fuel : ∀ es w a used,
  clock w = t0 + used →
  match wait_loop fuel timeout t0 es w a with
  | WaitNoFuel => True
  | WaitDone es' w' a' =>
      ∃ new,
        polls w' = polls w ++ new ∧
        shared_budget timeout used new ∧
        Forall (λ e, ¬ structural_error e) new
  | WaitErr es' w' =>
      ∃ new,
        polls w' = polls w ++ new ∧
        shared_budget timeout used new ∧
        Exists structural_error new
  end.
Proof.
  induction fuel as [|fuel IH]; intros es w a used Hclock; simpl; [done|].
  pose proof (sweep_trace timeout t0 (active es) [] (failed es)
                (err_occurred es) w false false used Hclock) as Hsw.
  simpl in Hsw.
  destruct (sweep timeout t0 (active es) [] (failed es) (err_occurred es) w
                  false false) as [kept fl err w1 af asf|kept fl err w1];
    simpl in Hsw; destruct Hsw as (new & Hp & Hc & Hsb & Hm).
  - destruct Hm as (Hf & Hmap & Hlen & Hsucc).
    assert (∃ new0, polls w1 = polls w ++ new0 ∧
                shared_budget timeout used new0 ∧
                Forall (λ e, ¬ structural_error e) new0) as Hstop.
    { exists new. by split_and!. }
    destruct af; [apply Hstop|].
    destruct (decide (kept = [])); [apply Hstop|].
    destruct ((timeout =? 0)
              || ((remaining_budget timeout t0 w1 =? 0) && negb asf));
      [apply Hstop|].
    assert (clock w1 = t0 + (used + spent new)) as Hc1 by lia.
    pose proof (IH (mkES kept fl (op_counter es) err) w1 a _ Hc1) as Hrec.
    destruct (wait_loop fuel timeout t0 (mkES kept fl (op_counter es) err) w1 a)
      as [es' w' a'|es' w'|]; [| |done].
    + destruct Hrec as (new' & Hp' & Hsb' & Hf').
      exists (new ++ new'). rewrite Hp', Hp, app_assoc.
      split_and!; [done|by apply shared_budget_app|by apply Forall_app].
    + destruct Hrec as (new' & Hp' & Hsb' & Hex').
      exists (new ++ new'). rewrite Hp', Hp, app_assoc.
      split_and!; [done|by apply shared_budget_app|].
      apply Exists_app. by right.
  - exists new. by split_and!.
Qed.

(** With a zero timeout the engine stops after its first sweep, whatever
    the sweep saw. *)
Lemma wait_loop_zero t0 fuel es w a :
  wait_loop (S fuel) 0 t0 es w a
  = match sweep 0 t0 (active es) [] (failed es) (err_occurred es) w
                false false with
    | SweepErr kept fl err w' => WaitErr (mkES kept fl (op_counter es) err) w'
    | SweepOk kept fl err w' any_failed _ =>
        WaitDone (mkES kept fl (op_counter es) err) w'
                 (if any_failed then true else a)
    end.
Proof.
  simpl.
  destruct (sweep 0 t0 (active es) [] (failed es) (err_occurred es) w
                  false false) as [kept fl err w1 af asf|kept fl err w1];
    [|done].
  destruct af; [done|]. by destruct (decide (kept = [])).
Qed.

(** The polls of a sweep go down the list in insertion order: whether the
    walk reaches the end or is cut short, the tokens polled are the tokens
    of the first records of the list. *)
Lemma sweep_prefix timeout t0 todo : ∀ kept fl err w af asf,
  ∃ new,
    polls (sweep_world (sweep timeout t0 todo kept fl err w af asf))
    = polls w ++ new
    ∧ map pe_token new `prefix_of` map ev_token todo.
Proof.
  induction todo as [|ev rest IH]; intros kept fl err w af asf.
  - exists []. simpl. by rewrite app_nil_r.
  - simpl.
    pose proof (async_poll_trace (ev_token ev)
                  (remaining_budget timeout t0 w) w) as Ht.
    destruct (async_poll (ev_token ev) (remaining_budget timeout t0 w) w)
      as [r w1].
    destruct Ht as (Hp & _ & _).
    assert (∀ res : @sweep_result RT,
              (∃ new, polls (sweep_world res) = polls w1 ++ new
                      ∧ map pe_token new `prefix_of` map ev_token rest) →
              ∃ new, polls (sweep_world res) = polls w ++ new
                     ∧ map pe_token new
                       `prefix_of` ev_token ev :: map ev_token rest) as Hstep.
    { intros res (new & Hp' & Hpre).
      exists (mkPoll (ev_token ev) (remaining_budget timeout t0 w) r :: new).
      rewrite Hp', Hp, <- app_assoc. split; [done|].
      simpl. by apply prefix_cons. }
    destruct (pr_status r) as [[| | |]|].
    + apply Hstep, IH.
    + apply Hstep.
      destruct (IH kept fl err (async_release (ev_token ev) w1) af true)
        as (new & Hp' & Hpre).
      exists new. split; [exact Hp'|exact Hpre].
    + apply Hstep, IH.
    + apply Hstep, IH.
    + apply Hstep. exists []. simpl. rewrite app_nil_r.
      split; [done|apply prefix_nil].
Qed.

Lemma H5ESwait_run st fuel id es timeout a b :
  event_set_of id st = Some es →
  H5ESwait fuel id timeout (Ptr a) (Ptr b) st
  = match wait_loop fuel timeout (clock (wld st)) es (wld st) false with
    | WaitNoFuel => NoFuel
    | WaitErr es' w' =>
        Done FAIL
          (set_err_stack
             (mkErr H5E_EVENTSET H5E_CANTWAIT "can't wait on operations"
              :: err_stack st)
             (set_ids (<[id := IdEventSet es']> (ids st)) (set_wld w' st)))
    | WaitDone es' w' any_failed =>
        Done SUCCEED
          (set_mem
             (<[b := VBool (any_failed
                            || (err_occurred es'
                                && (0 <? H5ES__list_count (failed es'))))]>
                (<[a := VSize (H5ES__list_count (active es'))]> (mem st)))
             (set_ids (<[id := IdEventSet es']> (ids st)) (set_wld w' st)))
    end.
Proof.
  intros Hid. unfold H5ESwait, bind at 1.
  rewrite (verify_some _ _ _ Hid).
  rewrite decide_False by done. rewrite decide_False by done.
  unfold H5ES__wait, bind, get_state.
  destruct (wait_loop fuel timeout (clock (wld st)) es (wld st) false);
    reflexivity.
Qed.

Lemma polled_by_app st st' new :
  polls (wld st') = polls (wld st) ++ new → polled_by st st' = new.
Proof. intros H. unfold polled_by. rewrite H. apply drop_app_length. Qed.

Lemma async_poll_reply tok budget w :
  (async_poll tok budget w).1 = (rt_poll RT tok budget (rt w)).1.
Proof.
  unfold async_poll. by destruct (rt_poll RT tok budget (rt w)).
Qed.

Lemma sweep_all_fail timeout t0 todo : ∀ kept fl err w af asf,
  all_fail RT todo →
  ∃ fl' w',
    sweep timeout t0 todo kept fl err w af asf
    = SweepOk kept fl' (match todo with [] => err | _ => true end) w'
              (match todo with [] => af | _ => true end) asf
    ∧ length fl' = (length fl + length todo)%nat.
Proof.
  induction todo as [|ev rest IH]; intros kept fl err w af asf Hall.
  - exists fl, w. simpl. split; [done|lia].
  - simpl.
    pose proof (async_poll_reply (ev_token ev)
                  (remaining_budget timeout t0 w) w) as Hr.
    destruct (async_poll (ev_token ev) (remaining_budget timeout t0 w) w)
      as [r w1].
    simpl in Hr.
    assert (all_fail RT rest) as Hrest.
    { intros ev' b h Hin. apply Hall. by right. }
    destruct (Hall ev (remaining_budget timeout t0 w) (rt w)) as [Hs|Hs];
      [by left|..]; rewrite <- Hr in Hs; rewrite Hs.
    + destruct (IH kept (fl ++ [set_status H5ES_STATUS_FAIL ev]) true w1
                   true asf Hrest) as (fl' & w' & Heq & Hlen).
      exists fl', w'. rewrite Heq. rewrite length_app in Hlen. simpl in Hlen.
      split; [by destruct rest|lia].
    + destruct (IH kept (fl ++ [set_status H5ES_STATUS_CANCEL ev]) true w1
                   true asf Hrest) as (fl' & w' & Heq & Hlen).
      exists fl', w'. rewrite Heq. rewrite length_app in Hlen. simpl in Hlen.
      split; [by destruct rest|lia].
Qed.

End WaitEngine.

(** C1: the return code of [H5ESwait] says whether the wait could be carried
    out, not how the operations fared.  Whenever it returns, it returns FAIL
    exactly when the identifier is not an event set, an out-pointer is NULL,
    or the runtime could not execute one of the polls of this call; and when
    every operation of a non-empty set fails it still returns SUCCEED after
    one sweep: the failures show in [*op_failed], in [H5ESget_err_status]
    and in [H5ESget_err_count], every record having moved to the failed
    list. *)
Theorem wait_return_code {RT : async_runtime} (st : state RT) (fuel : nat)
    (id : hid_t) (timeout : Z) (num_in_progress op_failed : pointer) :
  (∀ r st',
     H5ESwait fuel id timeout num_in_progress op_failed st = Done r st' →
     (r = SUCCEED ∨ r = FAIL) ∧
     (r = FAIL ↔
        event_set_of id st = None ∨ num_in_progress = NULL ∨ op_failed = NULL
        ∨ Exists structural_error (polled_by st st')) ∧
     (Exists structural_error (polled_by st st') →
        fails_with CANT_WAIT st (Done r st'))) ∧
  (∀ es a b c,
     event_set_of id st = Some es →
     num_in_progress = Ptr a → op_failed = Ptr b →
     active es ≠ [] → all_fail RT (active es) → (0 < fuel)%nat →
     ∃ st' es',
       H5ESwait fuel id timeout num_in_progress op_failed st = Done SUCCEED st' ∧
       event_set_of id st' = Some es' ∧
       active es' = [] ∧
       length (failed es') = (length (failed es) + length (active es))%nat ∧
       mem st' !! b = Some (VBool true) ∧
       read_err_status id c st' = Some true ∧
       read_err_count id c st'
       = Some (Z.of_nat (length (failed es) + length (active es)))).
Proof.
  split.
  - intros r st' Hrun.
    destruct (decide (event_set_of id st = None ∨ num_in_progress = NULL
                      ∨ op_failed = NULL)) as [Hbad|Hgood].
    + destruct (H5ESwait_rejects st fuel id timeout _ _ Hbad) as (e & He & _).
      rewrite He in Hrun. injection Hrun as <- <-.
      split; [by right|]. split; [tauto|].
      rewrite polled_by_same_world by done. by intros ?%Exists_nil.
    + destruct (event_set_of id st) as [es|] eqn:Hid; [|tauto].
      destruct num_in_progress as [|a]; [tauto|].
      destruct op_failed as [|b]; [tauto|].
      rewrite (H5ESwait_run _ _ _ _ _ _ _ Hid) in Hrun.
      pose proof (wait_loop_trace timeout (clock (wld st)) fuel es (wld st)
                    false 0) as Ht.
      rewrite Z.add_0_r in Ht. specialize (Ht eq_refl).
      destruct (wait_loop fuel timeout (clock (wld st)) es (wld st) false)
        as [es' w' af|es' w'|]; [| |done].
      * destruct Ht as (new & Hp & _ & Hf).
        injection Hrun as <- <-. split; [by left|].
        rewrite (polled_by_app _ _ new) by exact Hp.
        assert (¬ Exists structural_error new) as Hnone.
        { intros Hex. apply Exists_exists in Hex as (e & Hin & He).
          rewrite Forall_forall in Hf. by apply (Hf e). }
        split; [|done]. split; [done|].
        intros [?|[?|[?|Hex]]]; done.
      * destruct Ht as (new & Hp & _ & Hex).
        injection Hrun as <- <-. split; [by right|].
        rewrite (polled_by_app _ _ new) by exact Hp.
        split; [split; [|done]; intros _; by repeat right|].
        intros _. eexists _, [_], _. simpl.
        split; [reflexivity|]. split; [reflexivity|].
        split; [apply list_elem_of_here|done].
  - intros es a b c Hid -> -> Hne Hall Hfuel.
    rewrite (H5ESwait_run _ _ _ _ _ _ _ Hid).
    destruct fuel as [|fuel]; [lia|]. simpl.
    destruct (sweep_all_fail timeout (clock (wld st)) (active es) []
                (failed es) (err_occurred es) (wld st) false false Hall)
      as (fl' & w' & Heq & Hlen).
    rewrite Heq. destruct (active es) as [|ev rest] eqn:Hact; [done|].
    eexists _, (mkES [] fl' (op_counter es) true).
    split; [reflexivity|].
    assert (event_set_of id
              (set_mem
                 (<[b := VBool (true || (true && (0 <? H5ES__list_count fl')))]>
                    (<[a := VSize (H5ES__list_count [])]> (mem st)))
                 (set_ids (<[id := IdEventSet (mkES [] fl' (op_counter es) true)]>
                             (ids st)) (set_wld w' st)))
            = Some (mkES [] fl' (op_counter es) true)) as Hid'.
    { apply event_set_of_lookup. simpl. apply lookup_insert_eq. }
    rewrite (read_err_status_es _ _ _ _ Hid'), (read_err_count_es _ _ _ _ Hid').
    simpl. rewrite lookup_insert_eq, Hlen. done.
Qed.

(** The example of the note on [H5ESwait]: with a timeout of 10, once the
    first operation has been waited on for 4 the next is allowed 6. *)
Example budget_is_used_up :
  ∃ st',
    H5ESwait 1 7 10 (Ptr 100) (Ptr 101) (sample_state rt_slow [] two_active)
    = Done SUCCEED st' ∧
    map (λ e, (pe_token e, pe_budget e, pr_elapsed (pe_reply e)))
        (polled_by (sample_state rt_slow [] two_active) st')
    = [(1, 10, 4); (2, 6, 4)].
Proof.
  eexists. split; [vm_compute; reflexivity|]. vm_compute. reflexivity.
Qed.

(** C2: the timeout is one budget for the whole call, not an allowance per
    operation: every poll is given the timeout less the time taken by all
    earlier polls of the call, for whichever record (the sentinel that
    blocks for ever excepted).  With a zero timeout the call makes one
    sweep and returns: every poll is given a zero budget, so nothing
    blocks; the polls go down the active list in insertion order and no
    record is polled a second time; and when the call succeeds and no
    record is reported failed, every active record has been polled, once. *)
Theorem wait_shared_budget {RT : async_runtime} (st : state RT) (id : hid_t)
    (es : H5ES_t) (a b : Z) :
  event_set_of id st = Some es →
  (∀ fuel timeout r st',
     H5ESwait fuel id timeout (Ptr a) (Ptr b) st = Done r st' →
     shared_budget timeout 0 (polled_by st st')) ∧
  (∀ fuel, (1 ≤ fuel)%nat →
     ∃ r st',
       H5ESwait fuel id 0 (Ptr a) (Ptr b) st = Done r st' ∧
       Forall (λ e, pe_budget e = 0) (polled_by st st') ∧
       map pe_token (polled_by st st') `prefix_of` map ev_token (active es) ∧
       (length (polled_by st st') ≤ length (active es))%nat ∧
       (r = SUCCEED →
        Forall (λ e, ¬ reported H5ES_STATUS_FAIL e
                     ∧ ¬ reported H5ES_STATUS_CANCEL e) (polled_by st st') →
        map pe_token (polled_by st st') = map ev_token (active es))).
Proof.
  intros Hid.
  assert (∀ fuel timeout r st',
            H5ESwait fuel id timeout (Ptr a) (Ptr b) st = Done r st' →
            shared_budget timeout 0 (polled_by st st')) as Hshared.
  { intros fuel timeout r st' Hrun.
    rewrite (H5ESwait_run _ _ _ _ _ _ _ Hid) in Hrun.
    pose proof (wait_loop_trace timeout (clock (wld st)) fuel es (wld st)
                  false 0) as Ht.
    rewrite Z.add_0_r in Ht. specialize (Ht eq_refl).
    destruct (wait_loop fuel timeout (clock (wld st)) es (wld st) false)
      as [es' w' af|es' w'|]; [| |done];
      destruct Ht as (new & Hp & Hsb & _); injection Hrun as <- <-;
      by rewrite (polled_by_app _ _ new). }
  split; [exact Hshared|].
  intros [|fuel] H1; [lia|].
  pose proof (H5ESwait_run st (S fuel) id es 0 a b Hid) as Hrun.
  rewrite wait_loop_zero in Hrun.
  destruct (sweep_prefix 0 (clock (wld st)) (active es) [] (failed es)
              (err_occurred es) (wld st) false false) as (new & Hp & Hpre).
  pose proof (sweep_trace 0 (clock (wld st)) (active es) [] (failed es)
                (err_occurred es) (wld st) false false 0) as Hsw.
  rewrite Z.add_0_r in Hsw. specialize (Hsw eq_refl). cbv zeta in Hsw.
  destruct Hsw as (new' & Hp0 & _ & _ & Hm).
  rewrite Hp in Hp0. apply app_inv_head in Hp0 as <-.
  assert (∀ r st', H5ESwait (S fuel) id 0 (Ptr a) (Ptr b) st = Done r st' →
            polls (wld st') = polls (wld st) ++ new →
            Forall (λ e, pe_budget e = 0) (polled_by st st')
            ∧ map pe_token (polled_by st st')
              `prefix_of` map ev_token (active es)
            ∧ (length (polled_by st st') ≤ length (active es))%nat) as Hcommon.
  { intros r st' Hr Hpolls. split.
    - apply (shared_budget_zero _ 0); [done|]. by eapply Hshared.
    - rewrite (polled_by_app _ _ new) by exact Hpolls. split; [exact Hpre|].
      apply prefix_length in Hpre. by rewrite !length_map in Hpre. }
  destruct (sweep 0 (clock (wld st)) (active es) [] (failed es)
                  (err_occurred es) (wld st) false false)
    as [kept fl err w1 af asf|kept fl err w1]; simpl in Hp.
  - destruct Hm as (_ & Hmap & _).
    eexists _, _. split; [exact Hrun|].
    destruct (Hcommon _ _ Hrun Hp) as (Hb & Hpr & Hlen).
    split_and!; [exact Hb|exact Hpr|exact Hlen|].
    intros _ _. by rewrite (polled_by_app _ _ new) by exact Hp.
  - eexists _, _. split; [exact Hrun|].
    destruct (Hcommon _ _ Hrun Hp) as (Hb & Hpr & Hlen).
    split_and!; [exact Hb|exact Hpr|exact Hlen|done].
Qed.

(** * The statements on sample states *)

(** A dataset identifier handed to [H5ESwait] and [H5ESclose]. *)
Lemma bad_handle_rejected_witness :
  event_set_of 8 (sample_state rt_mixed [] two_active) = None ∧
  rejected_with BAD_HANDLE (sample_state rt_mixed [] two_active)
    (H5ESwait 1 8 0 (Ptr 100) (Ptr 101) (sample_state rt_mixed [] two_active)) ∧
  rejected_with BAD_HANDLE (sample_state rt_mixed [] two_active)
    (H5ESclose 8 (sample_state rt_mixed [] two_active)).
Proof.
  assert (event_set_of 8 (sample_state rt_mixed [] two_active) = None) as H
    by (vm_compute; reflexivity).
  split; [exact H|].
  destruct (bad_handle_rejected (sample_state rt_mixed [] two_active) 8 H)
    as (_ & _ & Hw & _ & _ & _ & Hc).
  split; [apply Hw|exact Hc].
Defined.

(** A wait with a NULL [num_in_progress] on an event set with work in flight. *)
Lemma wait_argument_errors_witness :
  ∃ e st',
    H5ESwait 1 7 5 NULL (Ptr 101) (sample_state rt_mixed [] two_active)
    = Done FAIL st' ∧
    st' = set_err_stack [e] (sample_state rt_mixed [] two_active) ∧
    polled_by (sample_state rt_mixed [] two_active) st' = [] ∧
    event_set_of 7 st' = Some two_active.
Proof.
  destruct (wait_argument_errors (sample_state rt_mixed [] two_active) 1 7 5
              NULL (Ptr 101)) as (e & st' & Hrun & Hst & _ & _ & Hp & _ & Hes & _).
  { right. left. reflexivity. }
  exists e, st'. split; [exact Hrun|]. split; [exact Hst|].
  split; [exact Hp|]. rewrite Hes. vm_compute. reflexivity.
Defined.

(** NULL out-pointers on an event set with two active records. *)
Lemma accessors_null_out_pointer_witness :
  H5ESget_count 7 NULL (sample_state rt_mixed [] two_active)
  = Done SUCCEED (sample_state rt_mixed [] two_active) ∧
  H5ESget_err_count 7 NULL (sample_state rt_mixed [] two_active)
  = Done SUCCEED (sample_state rt_mixed [] two_active).
Proof.
  destruct (accessors_null_out_pointer (sample_state rt_mixed [] two_active) 7
              two_active) as (H1 & _ & _ & H4).
  { vm_compute. reflexivity. }
  split; [exact H1|exact H4].
Defined.

(** The error count of an event set with three failed records. *)
Lemma err_count_value_witness :
  read_err_count 7 200 (sample_state rt_failing [] three_failed) = Some 3.
Proof.
  destruct (err_count_value (sample_state rt_failing [] three_failed) 7
              three_failed 200) as [Hrun _].
  { vm_compute. reflexivity. }
  unfold read_err_count. rewrite Hrun. vm_compute. reflexivity.
Defined.

(** An array of size 0 handed to the extractor. *)
Lemma get_err_info_bad_value_witness :
  rejected_with BAD_VALUE (sample_state rt_failing [] three_failed)
    (H5ESget_err_info 7 0 (Ptr 300) (Ptr 301)
       (sample_state rt_failing [] three_failed)).
Proof.
  destruct (get_err_info_bad_value (sample_state rt_failing [] three_failed) 7
              three_failed 0 (Ptr 300) (Ptr 301)) as [H _].
  - vm_compute. reflexivity.
  - left. reflexivity.
  - exact H.
Defined.

(** Closing a busy event set, and an idle one with three failed records. *)
Lemma close_discipline_witness :
  fails_with BUSY (sample_state rt_mixed [] two_active)
    (H5ESclose 7 (sample_state rt_mixed [] two_active)) ∧
  ∃ st', H5ESclose 7 (sample_state rt_failing [] three_failed) = Done SUCCEED st'
         ∧ event_set_of 7 st' = None
         ∧ released (wld st') = [1; 2; 3].
Proof.
  split.
  - destruct (close_discipline (sample_state rt_mixed [] two_active) 7
                two_active) as [Hbusy _].
    { vm_compute. reflexivity. }
    destruct Hbusy as [H _]; [discriminate|exact H].
  - destruct (close_discipline (sample_state rt_failing [] three_failed) 7
                three_failed) as [_ Hidle].
    { vm_compute. reflexivity. }
    destruct Hidle as (st' & Hrun & Hnone & _ & Hrel & _); [reflexivity|].
    exists st'. split; [exact Hrun|]. split; [exact Hnone|exact Hrel].
Defined.

(** Draining two, then one, of three failed records. *)
Lemma err_flag_after_drain_witness :
  ∃ st1 st2,
    H5ESget_err_info 7 2 (Ptr 300) (Ptr 301)
      (sample_state rt_failing [] three_failed) = Done SUCCEED st1 ∧
    mem st1 !! 301 = Some (VSize 2) ∧
    read_err_status 7 200 st1 = Some true ∧
    read_err_count 7 200 st1 = Some 1 ∧
    H5ESget_err_info 7 1 (Ptr 300) (Ptr 301) st1 = Done SUCCEED st2 ∧
    mem st2 !! 301 = Some (VSize 1) ∧
    read_err_status 7 200 st2 = Some false ∧
    read_err_count 7 200 st2 = Some 0.
Proof.
  destruct (err_flag_after_drain (sample_state rt_failing [] three_failed) 7
              three_failed 300 301) as [_ Hs5].
  { vm_compute. reflexivity. }
  apply (Hs5 200 (mk_op 1 0 H5ES_STATUS_FAIL) (mk_op 2 1 H5ES_STATUS_FAIL)
             (mk_op 3 2 H5ES_STATUS_CANCEL)).
  - reflexivity.
  - reflexivity.
  - intros ev h _. exists ["H5Dwrite failed"%string]. reflexivity.
Defined.

(** Three appends to a new event set. *)
Lemma counters_contiguous_from_zero_witness :
  map ev_counter
      (active (appends [mk_op 1 9 H5ES_STATUS_SUCCEED; mk_op 2 9 H5ES_STATUS_FAIL;
                        mk_op 3 9 H5ES_STATUS_IN_PROGRESS] H5ES__create))
  = [0; 1; 2].
Proof.
  destruct (@counters_contiguous_from_zero rt_mixed) as [Hc _].
  destruct (Hc [mk_op 1 9 H5ES_STATUS_SUCCEED; mk_op 2 9 H5ES_STATUS_FAIL;
                mk_op 3 9 H5ES_STATUS_IN_PROGRESS]) as [Heq _].
  { vm_compute. discriminate. }
  exact Heq.
Defined.

(** A wait on two operations that both fail. *)
Lemma wait_return_code_witness :
  ∃ st',
    H5ESwait 1 7 10 (Ptr 100) (Ptr 101) (sample_state rt_failing [] two_active)
    = Done SUCCEED st' ∧
    mem st' !! 101 = Some (VBool true) ∧
    read_err_count 7 200 st' = Some 2 ∧
    ¬ Exists structural_error
        (polled_by (sample_state rt_failing [] two_active) st').
Proof.
  destruct (wait_return_code (sample_state rt_failing [] two_active) 1 7 10
              (Ptr 100) (Ptr 101)) as [Hret Hall].
  destruct (Hall two_active 100 101 200)
    as (st' & es' & Hrun & _ & _ & _ & Hm & _ & Hcount).
  - vm_compute. reflexivity.
  - reflexivity.
  - reflexivity.
  - discriminate.
  - intros ev b h _. left. reflexivity.
  - lia.
  - exists st'. split; [exact Hrun|]. split; [exact Hm|].
    split; [exact Hcount|].
    destruct (Hret SUCCEED st' Hrun) as (_ & Hiff & _).
    intros Hex. discriminate (proj2 Hiff (or_intror (or_intror (or_intror Hex)))).
Defined.

(** Two active records.  A runtime that takes 4 to complete an operation,
    asked with a timeout of 10: the first poll is given 10, the second what
    is left, 6.  A runtime that reports the first record SUCCEED and the
    second IN_PROGRESS, asked with a zero timeout: each record is polled
    once, with a zero budget. *)
Lemma wait_shared_budget_witness :
  (∃ st',
     H5ESwait 1 7 10 (Ptr 100) (Ptr 101) (sample_state rt_slow [] two_active)
     = Done SUCCEED st' ∧
     map (λ e, (pe_token e, pe_budget e, poll_cost e))
         (polled_by (sample_state rt_slow [] two_active) st')
     = [(1, 10, 4); (2, 6, 4)] ∧
     shared_budget 10 0 (polled_by (sample_state rt_slow [] two_active) st'))
  ∧ (∃ st',
       H5ESwait 1 7 0 (Ptr 100) (Ptr 101) (sample_state rt_mixed [] two_active)
       = Done SUCCEED st' ∧
       Forall (λ e, pe_budget e = 0)
              (polled_by (sample_state rt_mixed [] two_active) st') ∧
       map pe_token (polled_by (sample_state rt_mixed [] two_active) st')
       = [1; 2]).
Proof.
  split.
  - destruct (wait_shared_budget (sample_state rt_slow [] two_active) 7
                two_active 100 101) as [Hshared _].
    { vm_compute. reflexivity. }
    assert (∃ st',
              H5ESwait 1 7 10 (Ptr 100) (Ptr 101)
                (sample_state rt_slow [] two_active) = Done SUCCEED st'
              ∧ map (λ e, (pe_token e, pe_budget e, poll_cost e))
                    (polled_by (sample_state rt_slow [] two_active) st')
                = [(1, 10, 4); (2, 6, 4)]) as (st' & Hrun & Hpolls).
    { eexists. split; [vm_compute; reflexivity|]. vm_compute. reflexivity. }
    exists st'. split; [exact Hrun|]. split; [exact Hpolls|].
    exact (Hshared _ _ _ _ Hrun).
  - destruct (wait_shared_budget (sample_state rt_mixed [] two_active) 7
                two_active 100 101) as [_ Hzero].
    { vm_compute. reflexivity. }
    destruct (Hzero 1%nat) as (r & st' & Hrun & Hb & _ & _ & Hfull); [lia|].
    assert (∃ st0,
              H5ESwait 1 7 0 (Ptr 100) (Ptr 101)
                (sample_state rt_mixed [] two_active) = Done SUCCEED st0
              ∧ Forall (λ e, ¬ reported H5ES_STATUS_FAIL e
                             ∧ ¬ reported H5ES_STATUS_CANCEL e)
                       (polled_by (sample_state rt_mixed [] two_active) st0))
      as (st0 & Hrun0 & Hnofail).
    { eexists. split; [vm_compute; reflexivity|].
      vm_compute. repeat constructor; discriminate. }
    rewrite Hrun0 in Hrun. injection Hrun as <- <-.
    exists st0. split; [exact Hrun0|]. split; [exact Hb|].
    exact (Hfull eq_refl Hnofail).
Defined.

(** * The subfiling test: [slab_set] *)

Section SlabSet.

Import t_psubfile.

Lemma block_fits r n d :
  0 ≤ r < n → 0 ≤ d → 0 ≤ r * (d / n) ∧ r * (d / n) + d / n ≤ d.
Proof.
  intros Hr Hd.
  assert (0 ≤ d / n) by (apply Z.div_pos; lia).
  assert (n * (d / n) ≤ d) by (apply Z.mul_div_le; lia).
  split; nia.
Qed.

Lemma to_hsize_int z : 0 ≤ z ≤ INT_MAX → to_hsize z = z.
Proof.
  intros H. apply uint64_small. unfold INT_MAX, UINT64_MOD in *. lia.
Qed.

Lemma hmul_rank r n d :
  0 ≤ r < n → n ≤ INT_MAX → 0 ≤ d < UINT64_MOD →
  hmul (to_hsize r) (d / n) = r * (d / n).
Proof.
  intros Hr Hn Hd. rewrite to_hsize_int by lia.
  apply uint64_small. pose proof (block_fits r n d Hr). 
  assert (0 ≤ d / n) by (apply Z.div_pos; lia). lia.
Qed.

Lemma hdiv_size d n : 0 < n ≤ INT_MAX → hdiv d (to_hsize n) = Some (d / n).
Proof.
  intros Hn. rewrite to_hsize_int by lia. unfold hdiv.
  rewrite decide_False by lia. done.
Qed.

Lemma slab_set_BYROW r n d0 d1 :
  0 ≤ r < n → n ≤ INT_MAX → 0 ≤ d0 < UINT64_MOD →
  slab_set r n d0 d1 BYROW
  = Some {| start0 := r * (d0 / n); start1 := 0; count0 := 1; count1 := 1;
            stride0 := d0 / n; stride1 := d1;
            block0 := d0 / n; block1 := d1 |}.
Proof.
  intros Hr Hn Hd. unfold slab_set. rewrite decide_True by done.
  rewrite hdiv_size by lia. simpl. by rewrite hmul_rank.
Qed.

Lemma slab_set_BYCOL r n d0 d1 :
  0 ≤ r < n → n ≤ INT_MAX → 0 ≤ d1 < UINT64_MOD →
  slab_set r n d0 d1 BYCOL
  = Some {| start0 := 0; start1 := r * (d1 / n); count0 := 1; count1 := 1;
            stride0 := d0; stride1 := d1 / n;
            block0 := d0; block1 := d1 / n |}.
Proof.
  intros Hr Hn Hd. unfold slab_set.
  rewrite decide_False by done. rewrite decide_True by done.
  rewrite hdiv_size by lia. simpl. by rewrite hmul_rank.
Qed.

Lemma slab_set_ZROW r n d0 d1 :
  0 ≤ r < n → n ≤ INT_MAX → 0 ≤ d0 < UINT64_MOD →
  slab_set r n d0 d1 ZROW
  = Some (if decide (r = 0)
          then {| start0 := 0; start1 := 0; count0 := 1; count1 := 1;
                  stride0 := 1; stride1 := d1; block0 := 0; block1 := d1 |}
          else {| start0 := r * (d0 / n); start1 := 0;
                  count0 := 1; count1 := 1;
                  stride0 := d0 / n; stride1 := d1;
                  block0 := d0 / n; block1 := d1 |}).
Proof.
  intros Hr Hn Hd. unfold slab_set.
  do 2 rewrite decide_False by done. rewrite decide_True by done.
  destruct (decide (r = 0)) as [->|Hne].
  - repeat (case_decide; [congruence|]). done.
  - rewrite !decide_True by done.
    rewrite hdiv_size by lia. simpl. rewrite hmul_rank by done.
    by rewrite !decide_True by done.
Qed.

Lemma slab_set_ZCOL r n d0 d1 :
  0 ≤ r < n → n ≤ INT_MAX → 0 ≤ d1 < UINT64_MOD →
  slab_set r n d0 d1 ZCOL
  = Some (if decide (r = 0)
          then {| start0 := 0; start1 := 0; count0 := 1; count1 := 1;
                  stride0 := d0; stride1 := 1; block0 := d0; block1 := 0 |}
          else {| start0 := 0; start1 := r * (d1 / n);
                  count0 := 1; count1 := 1;
                  stride0 := d0; stride1 := d1 / n;
                  block0 := d0; block1 := d1 / n |}).
Proof.
  intros Hr Hn Hd. unfold slab_set.
  do 3 rewrite decide_False by done. rewrite decide_True by done.
  destruct (decide (r = 0)) as [->|Hne].
  - repeat (case_decide; [congruence|]). done.
  - rewrite !decide_True by done.
    rewrite hdiv_size by lia. simpl. rewrite hmul_rank by done.
    by rewrite !decide_True by done.
Qed.

Lemma slab_set_default r n d0 d1 mode :
  mode ≠ BYROW → mode ≠ BYCOL → mode ≠ ZROW → mode ≠ ZCOL →
  slab_set r n d0 d1 mode
  = Some {| start0 := 0; start1 := 0; count0 := 1; count1 := 1;
            stride0 := d0; stride1 := d1; block0 := d0; block1 := d1 |}.
Proof.
  intros. unfold slab_set. by rewrite !decide_False by done.
Qed.

End SlabSet.

Import t_psubfile.

(** X1: Whatever the mode, known or not, a process of the communicator is given
    one block ([count] is 1 by 1) that lies inside the dataset. *)
Theorem slab_set_inside_dataset (mpi_rank mpi_size dim0 dim1 mode : Z) :
  0 ≤ mpi_rank < mpi_size → mpi_size ≤ INT_MAX →
  0 ≤ dim0 < UINT64_MOD → 0 ≤ dim1 < UINT64_MOD →
  ∃ s, slab_set mpi_rank mpi_size dim0 dim1 mode = Some s ∧
       count0 s = 1 ∧ count1 s = 1 ∧
       0 ≤ start0 s ∧ 0 ≤ block0 s ∧ start0 s + block0 s ≤ dim0 ∧
       0 ≤ start1 s ∧ 0 ≤ block1 s ∧ start1 s + block1 s ≤ dim1.
Proof.
  intros Hr Hn H0 H1.
  pose proof (block_fits mpi_rank mpi_size dim0 Hr (proj1 H0)) as [? ?].
  pose proof (block_fits mpi_rank mpi_size dim1 Hr (proj1 H1)) as [? ?].
  assert (0 ≤ dim0 / mpi_size) by (apply Z.div_pos; lia).
  assert (0 ≤ dim1 / mpi_size) by (apply Z.div_pos; lia).
  destruct (decide (mode = BYROW)) as [->|?].
  { eexists. split; [by apply slab_set_BYROW|]. simpl. lia. }
  destruct (decide (mode = BYCOL)) as [->|?].
  { eexists. split; [by apply slab_set_BYCOL|]. simpl. lia. }
  destruct (decide (mode = ZROW)) as [->|?].
  { eexists. split; [by apply slab_set_ZROW|].
    case_decide; simpl; lia. }
  destruct (decide (mode = ZCOL)) as [->|?].
  { eexists. split; [by apply slab_set_ZCOL|].
    case_decide; simpl; lia. }
  eexists. split; [by apply slab_set_default|]. simpl. lia.
Qed.

(** X2: Division by rows shares the rows out in contiguous slabs, in rank order
    and without overlap: a row belongs to at most one process, and it
    belongs to one exactly when it is not among the last
    [dim0 mod mpi_size] rows, which no process is given. *)
Theorem slab_set_BYROW_partition (mpi_size dim0 dim1 : Z) :
  0 < mpi_size ≤ INT_MAX → 0 ≤ dim0 < UINT64_MOD →
  (∀ x, 0 ≤ x < dim0 →
     (∃ r s, 0 ≤ r < mpi_size ∧
             slab_set r mpi_size dim0 dim1 BYROW = Some s ∧ selects_row s x)
     ↔ x < dim0 - dim0 mod mpi_size) ∧
  (∀ r1 r2 s1 s2 x,
     0 ≤ r1 < mpi_size → 0 ≤ r2 < mpi_size →
     slab_set r1 mpi_size dim0 dim1 BYROW = Some s1 →
     slab_set r2 mpi_size dim0 dim1 BYROW = Some s2 →
     selects_row s1 x → selects_row s2 x → r1 = r2) ∧
  (∀ r1 r2 s1 s2,
     0 ≤ r1 < r2 → r2 < mpi_size →
     slab_set r1 mpi_size dim0 dim1 BYROW = Some s1 →
     slab_set r2 mpi_size dim0 dim1 BYROW = Some s2 →
     start0 s1 + block0 s1 ≤ start0 s2).
Proof.
  intros Hn Hd.
  set (b := dim0 / mpi_size).
  assert (0 ≤ b) as Hb by (apply Z.div_pos; lia).
  assert (dim0 - dim0 mod mpi_size = mpi_size * b) as Hcover.
  { pose proof (Z.div_mod dim0 mpi_size). subst b. lia. }
  split_and!.
  - intros x Hx. rewrite Hcover. split.
    + intros (r & s & Hr & Hs & Hsel).
      rewrite slab_set_BYROW in Hs by lia. injection Hs as <-.
      unfold selects_row in Hsel. simpl in Hsel. fold b in Hsel. nia.
    + intros Hlt.
      assert (0 < b) as Hbpos by nia.
      exists (x / b). eexists.
      assert (0 ≤ x / b < mpi_size) as Hr.
      { split; [apply Z.div_pos; lia|].
        apply Z.div_lt_upper_bound; lia. }
      split; [exact Hr|]. split; [apply slab_set_BYROW; lia|].
      unfold selects_row. simpl. fold b.
      pose proof (Z.div_mod x b). pose proof (Z.mod_pos_bound x b). lia.
  - intros r1 r2 s1 s2 x Hr1 Hr2 Hs1 Hs2 Hx1 Hx2.
    rewrite slab_set_BYROW in Hs1, Hs2 by lia.
    injection Hs1 as <-. injection Hs2 as <-.
    unfold selects_row in *. simpl in *. fold b in Hx1, Hx2. nia.
  - intros r1 r2 s1 s2 Hr1 Hr2 Hs1 Hs2.
    rewrite slab_set_BYROW in Hs1, Hs2 by lia.
    injection Hs1 as <-. injection Hs2 as <-. simpl. fold b. nia.
Qed.

(** X3: Division by columns is division by rows with the two dimensions
    exchanged, and so for the two variants that leave process 0 empty;
    this holds for all arguments, a division by zero included. *)
Theorem slab_set_columns_mirror_rows (mpi_rank mpi_size dim0 dim1 : Z) :
  slab_set mpi_rank mpi_size dim0 dim1 BYCOL
  = transpose <$> slab_set mpi_rank mpi_size dim1 dim0 BYROW
  ∧ slab_set mpi_rank mpi_size dim0 dim1 ZCOL
    = transpose <$> slab_set mpi_rank mpi_size dim1 dim0 ZROW.
Proof.
  unfold slab_set. simpl.
  split.
  - destruct (hdiv dim1 (to_hsize mpi_size)); done.
  - destruct (decide (mpi_rank ≠ 0));
      [destruct (hdiv dim1 (to_hsize mpi_size))|]; done.
Qed.

Lemma to_hsize_zero z : - INT_MAX - 1 ≤ z ≤ INT_MAX → to_hsize z = 0 ↔ z = 0.
Proof.
  intros Hz. unfold to_hsize, uint64. split; [|by intros ->].
  intros H. unfold INT_MAX, UINT64_MOD in *.
  destruct (decide (0 ≤ z)).
  - rewrite Z.mod_small in H by lia. done.
  - rewrite <- (Z_mod_plus_full z 1) in H.
    rewrite Z.mod_small in H by lia. lia.
Qed.

(** X4: The variants that leave process 0 empty: process 0 is given an empty
    block with a stride of 1 and no division is evaluated for it, whatever
    [mpi_size] is; every other process is given what the plain division
    gives it.  A stride of 0 is therefore still handed out, to the other
    processes, as soon as there are more processes than rows. *)
Theorem slab_set_ZROW_process0 (mpi_rank mpi_size dim0 dim1 : Z) :
  slab_set 0 mpi_size dim0 dim1 ZROW
  = Some {| start0 := 0; start1 := 0; count0 := 1; count1 := 1;
            stride0 := 1; stride1 := dim1; block0 := 0; block1 := dim1 |}
  ∧ (mpi_rank ≠ 0 →
     slab_set mpi_rank mpi_size dim0 dim1 ZROW
     = slab_set mpi_rank mpi_size dim0 dim1 BYROW)
  ∧ (0 ≤ mpi_rank < mpi_size → mpi_size ≤ INT_MAX → 0 ≤ dim0 < UINT64_MOD →
     ∀ s, slab_set mpi_rank mpi_size dim0 dim1 ZROW = Some s →
          (stride0 s ≠ 0 ↔ mpi_rank = 0 ∨ mpi_size ≤ dim0)).
Proof.
  split_and!.
  - reflexivity.
  - intros Hne. unfold slab_set. simpl.
    rewrite !decide_True by done.
    destruct (hdiv dim0 (to_hsize mpi_size)); simpl; [|done].
    by rewrite !decide_True by done.
  - intros Hr Hn Hd s Hs. rewrite slab_set_ZROW in Hs by done.
    injection Hs as <-. case_decide as H0; simpl.
    + split; [by left|done].
    + split.
      * intros Hne. right.
        destruct (decide (mpi_size ≤ dim0)); [done|].
        rewrite Z.div_small in Hne by lia. done.
      * intros [?|Hle]; [done|].
        assert (1 ≤ dim0 / mpi_size); [|lia].
        apply Z.div_le_lower_bound; lia.
Qed.

(** X5: [slab_set] divides by [mpi_size]: with [mpi_size] 0 the division is by
    zero in the two plain modes, and in the two variants for every process
    but process 0; in no other case. *)
Theorem slab_set_division_by_zero (mpi_rank mpi_size dim0 dim1 mode : Z) :
  - INT_MAX - 1 ≤ mpi_size ≤ INT_MAX →
  slab_set mpi_rank mpi_size dim0 dim1 mode = None
  ↔ mpi_size = 0
    ∧ (mode = BYROW ∨ mode = BYCOL
       ∨ ((mode = ZROW ∨ mode = ZCOL) ∧ mpi_rank ≠ 0)).
Proof.
  intros Hn. pose proof (to_hsize_zero mpi_size Hn) as Hz.
  assert (∀ d, hdiv d (to_hsize mpi_size) = None ↔ mpi_size = 0) as Hdiv.
  { intros d. unfold hdiv.
    destruct (decide (to_hsize mpi_size = 0)) as [e|ne].
    - split; [intros _; by apply Hz|done].
    - split; [done|]. intros H0. exfalso. apply ne. by apply Hz. }
  unfold slab_set.
  destruct (decide (mode = BYROW)) as [->|?].
  { specialize (Hdiv dim0).
    destruct (hdiv dim0 (to_hsize mpi_size)); simpl; split;
      [done|intros [H0 _]; by apply Hdiv in H0
      |intros _; split; [by apply Hdiv|by left]|done]. }
  destruct (decide (mode = BYCOL)) as [->|?].
  { specialize (Hdiv dim1).
    destruct (hdiv dim1 (to_hsize mpi_size)); simpl; split;
      [done|intros [H0 _]; by apply Hdiv in H0
      |intros _; split; [by apply Hdiv|right; by left]|done]. }
  destruct (decide (mode = ZROW)) as [->|?].
  { destruct (decide (mpi_rank ≠ 0)) as [Hr|Hr].
    - specialize (Hdiv dim0).
      destruct (hdiv dim0 (to_hsize mpi_size)); simpl; split;
        [done|intros [H0 _]; by apply Hdiv in H0
        |intros _; split; [by apply Hdiv|right; right; split; [by left|done]]
        |done].
    - simpl. split; [done|]. intros [_ [?|[?|[_ ?]]]]; done. }
  destruct (decide (mode = ZCOL)) as [->|?].
  { destruct (decide (mpi_rank ≠ 0)) as [Hr|Hr].
    - specialize (Hdiv dim1).
      destruct (hdiv dim1 (to_hsize mpi_size)); simpl; split;
        [done|intros [H0 _]; by apply Hdiv in H0
        |intros _; split; [by apply Hdiv|right; right; split; [by right|done]]
        |done].
    - simpl. split; [done|]. intros [_ [?|[?|[_ ?]]]]; done. }
  split; [done|]. intros [_ [?|[?|[[?|?] _]]]]; done.
Qed.

(** * The subfiling test: the callers of [slab_set] *)

(** X6: Every process of [independent_read_vds] reads one row of the virtual
    dataset, the row of its own rank: 100 elements, which fit the read
    buffer; the strides handed to the selection are not 0. *)
Theorem independent_read_vds_reads_own_row (mpi_rank mpi_size : Z) :
  0 ≤ mpi_rank < mpi_size → mpi_size ≤ INT_MAX →
  ∃ s, independent_read_vds_selection mpi_rank mpi_size = Some s ∧
       (∀ x, selects_row s x ↔ x = mpi_rank) ∧
       (∀ y, selects_col s y ↔ 0 ≤ y < RANK_ELEMENTS) ∧
       stride0 s ≠ 0 ∧ stride1 s ≠ 0 ∧
       datapoints s = RANK_ELEMENTS ∧ datapoints s ≤ rdata_capacity.
Proof.
  intros Hr Hn. unfold independent_read_vds_selection.
  rewrite to_hsize_int by lia.
  rewrite slab_set_BYROW by (unfold INT_MAX, UINT64_MOD in *; lia).
  rewrite Z.div_same by lia. eexists. split; [reflexivity|].
  unfold selects_row, selects_col, datapoints, rdata_capacity, RANK_ELEMENTS.
  simpl. split_and!; try done; intros; lia.
Qed.

(** X7: In [generate_test_files] the block selected in the file has as many
    elements as the memory buffer exactly when the group has one or two
    processes, as the groups [main] forms have; each process then writes
    the row of its rank in the group.  A larger group would select
    nothing. *)
Theorem generate_test_files_writes_own_row (group_rank group_size : Z) :
  0 ≤ group_rank < group_size → group_size ≤ INT_MAX →
  ∃ s, generate_test_files_selection group_rank group_size = Some s ∧
       (datapoints s = memspace_elements ↔ group_size ≤ 2) ∧
       (group_size ≤ 2 → ∀ x, selects_row s x ↔ x = group_rank) ∧
       (2 < group_size → datapoints s = 0).
Proof.
  intros Hr Hn. unfold generate_test_files_selection.
  assert (0 ≤ srcspace_dims0 group_size < UINT64_MOD) as Hd.
  { unfold srcspace_dims0, UINT64_MOD. case_decide; lia. }
  rewrite slab_set_BYROW by done.
  eexists. split; [reflexivity|].
  unfold datapoints, selects_row, memspace_elements, RANK_ELEMENTS. simpl.
  destruct (decide (group_size ≤ 2)) as [Hle|Hgt].
  - assert (srcspace_dims0 group_size / group_size = 1) as ->.
    { unfold srcspace_dims0. case_decide as H1; [by subst|].
      assert (group_size = 2) as -> by lia. done. }
    split_and!; [done| |intros; lia].
    intros _ x. lia.
  - assert (srcspace_dims0 group_size / group_size = 0) as ->.
    { unfold srcspace_dims0. rewrite decide_False by lia.
      apply Z.div_small. lia. }
    split_and!; [|intros; lia|done].
    split; [done|lia].
Qed.

(** * The subfiling test: the mappings of the virtual dataset *)

Section Mappings.

Lemma hmul_two i : 0 ≤ i ≤ INT_MAX → hmul (to_hsize i) 2 = 2 * i.
Proof.
  intros H. rewrite to_hsize_int by done.
  unfold hmul. rewrite Z.mul_comm.
  apply uint64_small. unfold INT_MAX, UINT64_MOD in *. lia.
Qed.

Lemma vds_loop_closed todo : ∀ i s0,
  0 ≤ i → i + Z.of_nat todo ≤ INT_MAX →
  vds_loop todo i s0
  = (i + Z.of_nat todo,
     match todo with O => s0 | S _ => 2 * (i + Z.of_nat todo - 1) end,
     (λ k, mkMapping (2 * k, 0) (2, 100) (array_get SRC_FILE k)
                     (array_get SRC_DATASET k) src_space)
       <$> seqZ i (Z.of_nat todo)).
Proof.
  induction todo as [|todo IH]; intros i s0 Hi Hmax.
  - simpl. by rewrite Z.add_0_r.
  - cbn [vds_loop]. rewrite IH by lia. rewrite hmul_two by lia.
    rewrite (seqZ_cons i) by lia. rewrite fmap_cons.
    replace (Z.pred (Z.of_nat (S todo))) with (Z.of_nat todo) by lia.
    replace (Z.succ i) with (i + 1) by lia.
    f_equal. f_equal; [lia|]. destruct todo; lia.
Qed.

Lemma array_get_is_Some {A} (a : list A) (k : Z) :
  is_Some (array_get a k) ↔ 0 ≤ k < Z.of_nat (length a).
Proof.
  unfold array_get. case_decide.
  - rewrite lookup_lt_is_Some. lia.
  - split; [by intros [? ?]|lia].
Qed.

Lemma rows_of_groups (n : nat) :
  mjoin (vm_rows <$>
           ((λ k, mkMapping (2 * k, 0) (2, 100) (array_get SRC_FILE k)
                            (array_get SRC_DATASET k) src_space)
              <$> seqZ 0 (Z.of_nat n)))
  = seqZ 0 (2 * Z.of_nat n).
Proof.
  induction n as [|n IH]; [done|].
  rewrite seqZ_S, !fmap_app, join_app, IH. simpl.
  replace (2 * Z.of_nat (S n)) with (2 * Z.of_nat n + 2) by lia.
  rewrite seqZ_app by lia. by f_equal.
Qed.

Lemma generate_vds_container_mappings_closed group_size :
  0 ≤ group_size ≤ INT_MAX →
  generate_vds_container_mappings group_size
  = ((λ k, mkMapping (2 * k, 0) (2, 100) (array_get SRC_FILE k)
                     (array_get SRC_DATASET k) src_space)
       <$> seqZ 0 (group_size / 2))
    ++ (if decide (group_size mod 2 ≠ 0)
        then [mkMapping ((if decide (group_size = 1) then 2
                          else group_size - 1), 0) (1, 100)
                        (array_get SRC_FILE (group_size / 2))
                        (array_get SRC_DATASET (group_size / 2)) odd_space]
        else []).
Proof.
  intros Hg. unfold generate_vds_container_mappings.
  rewrite Z.quot_div_nonneg, Z.rem_mod_nonneg by lia.
  assert (0 ≤ group_size / 2) by (apply Z.div_pos; lia).
  pose proof (Z.div_mod group_size 2) as Hdm.
  pose proof (Z.mod_pos_bound group_size 2) as Hmb.
  rewrite vds_loop_closed by lia.
  rewrite Z2Nat.id, Z.add_0_l by lia.
  case_decide as Hodd; [|by rewrite app_nil_r].
  do 3 f_equal. f_equal.
  destruct (Z.to_nat (group_size / 2)) eqn:E.
  - assert (group_size = 1) as -> by lia. done.
  - rewrite decide_False by lia.
    unfold hadd. rewrite uint64_small by (unfold INT_MAX, UINT64_MOD in *; lia).
    lia.
Qed.

End Mappings.

(** X8: With two processes or more, the mappings [generate_vds_container]
    builds cover the rows of the virtual dataset, all of them, each once
    and in order: two rows per pair of processes and one more row when
    the number of processes is odd; on both sides of every mapping the
    same number of elements is selected. *)
Theorem generate_vds_container_mappings_tile (group_size : Z) :
  2 ≤ group_size ≤ INT_MAX →
  mjoin (vm_rows <$> generate_vds_container_mappings group_size)
  = seqZ 0 group_size
  ∧ Forall (λ m, vm_elements m = src_elements m)
           (generate_vds_container_mappings group_size)
  ∧ Z.of_nat (length (generate_vds_container_mappings group_size))
    = (group_size + 1) / 2.
Proof.
  intros Hg. rewrite generate_vds_container_mappings_closed by lia.
  assert (0 ≤ group_size / 2) as Hq by (apply Z.div_pos; lia).
  pose proof (Z.div_mod group_size 2) as Hdm.
  pose proof (Z.mod_pos_bound group_size 2) as Hmb.
  split_and!.
  - rewrite fmap_app, join_app.
    rewrite <- (Z2Nat.id (group_size / 2)) at 1 by done.
    rewrite rows_of_groups, Z2Nat.id by done.
    case_decide as Hodd.
    + rewrite decide_False by lia. unfold vm_rows. simpl.
      replace group_size with (2 * (group_size / 2) + 1) at 3 by lia.
      rewrite seqZ_app by lia. f_equal.
      change (seqZ (0 + 2 * (group_size / 2)) 1)
        with [Z.of_nat 0 + (0 + 2 * (group_size / 2))].
      f_equal. lia.
    + simpl. rewrite app_nil_r. f_equal. lia.
  - apply Forall_app. split.
    + apply Forall_fmap, Forall_forall. by intros k _.
    + case_decide; by repeat constructor.
  - rewrite length_app, length_fmap, length_seqZ.
    case_decide as Hodd; simpl.
    + assert ((group_size + 1) / 2 = group_size / 2 + 1); [|lia].
      replace (group_size + 1) with (2 * (group_size / 2 + 1)) by lia.
      by rewrite Z.mul_comm, Z.div_mul.
    + assert ((group_size + 1) / 2 = group_size / 2); [|lia].
      replace (group_size + 1) with (1 + (group_size / 2) * 2) by lia.
      by rewrite Z.div_add.
Qed.

(** X9: The names of the source files and datasets are read from [SRC_FILE]
    (4 entries) and [SRC_DATASET] (3 entries): every name read lies inside
    its array exactly when there are at most 6 processes, the limit [main]
    sets; [SRC_FILE] alone would do for 8. *)
Theorem generate_vds_container_names_in_bounds (group_size : Z) :
  1 ≤ group_size ≤ INT_MAX →
  (Forall (λ m, is_Some (vm_file m) ∧ is_Some (vm_dset m))
          (generate_vds_container_mappings group_size)
   ↔ group_size ≤ 6)
  ∧ (Forall (λ m, is_Some (vm_file m))
            (generate_vds_container_mappings group_size)
     ↔ group_size ≤ 8).
Proof.
  intros Hg. rewrite generate_vds_container_mappings_closed by lia.
  assert (0 ≤ group_size / 2) as Hq by (apply Z.div_pos; lia).
  pose proof (Z.div_mod group_size 2) as Hdm.
  pose proof (Z.mod_pos_bound group_size 2) as Hmb.
  rewrite !Forall_app, !Forall_fmap, !Forall_seqZ.
  unfold compose. simpl.
  setoid_rewrite array_get_is_Some.
  change (Z.of_nat (length SRC_FILE)) with 4.
  change (Z.of_nat (length SRC_DATASET)) with 3.
  split.
  - split.
    + intros [Hloop Hlast].
      destruct (decide (group_size / 2 ≤ 3)) as [Hle|Hgt].
      * case_decide as Hodd; [|lia].
        rewrite Forall_singleton in Hlast. cbn [vm_file vm_dset] in Hlast.
        rewrite !array_get_is_Some in Hlast.
        change (Z.of_nat (length SRC_DATASET)) with 3 in Hlast. lia.
      * specialize (Hloop 3). lia.
    + intros Hle. split; [intros k Hk; lia|].
      case_decide as Hodd; [|constructor].
      apply Forall_singleton. cbn [vm_file vm_dset]. rewrite !array_get_is_Some.
      change (Z.of_nat (length SRC_FILE)) with 4.
      change (Z.of_nat (length SRC_DATASET)) with 3. lia.
  - split.
    + intros [Hloop Hlast].
      destruct (decide (group_size / 2 ≤ 4)) as [Hle|Hgt].
      * case_decide as Hodd; [|lia].
        rewrite Forall_singleton in Hlast. cbn [vm_file vm_dset] in Hlast.
        rewrite array_get_is_Some in Hlast.
        change (Z.of_nat (length SRC_FILE)) with 4 in Hlast. lia.
      * specialize (Hloop 4). lia.
    + intros Hle. split; [intros k Hk; lia|].
      case_decide as Hodd; [|constructor].
      apply Forall_singleton. cbn [vm_file vm_dset]. rewrite array_get_is_Some.
      change (Z.of_nat (length SRC_FILE)) with 4. lia.
Qed.

(** * The subfiling test: the data written and checked *)

Section TestData.

Lemma count_failures_bounds n : ∀ k e rdata f,
  f ≤ count_failures n k e rdata f ≤ f + Z.of_nat n.
Proof.
  induction n as [|n IH]; intros k e rdata f; simpl; [lia|].
  case_decide.
  - pose proof (IH (S k) (e + 1) rdata (f + 1)). lia.
  - pose proof (IH (S k) (e + 1) rdata f). lia.
Qed.

Lemma count_failures_none n : ∀ k e rdata f,
  count_failures n k e rdata f = f
  ↔ ∀ j, (j < n)%nat → rdata !! (k + j)%nat = Some (e + Z.of_nat j).
Proof.
  induction n as [|n IH]; intros k e rdata f; simpl.
  - split; [intros _ j Hj; lia|done].
  - case_decide as Hk.
    + split.
      * intros H. pose proof (count_failures_bounds n (S k) (e + 1) rdata (f + 1)).
        lia.
      * intros H. exfalso. apply Hk.
        specialize (H 0%nat). rewrite Nat.add_0_r, Z.add_0_r in H.
        apply H. lia.
    + rewrite IH. split.
      * intros H [|j] Hj.
        -- by rewrite Nat.add_0_r, Z.add_0_r.
        -- replace (k + S j)%nat with (S k + j)%nat by lia.
           rewrite H by lia. f_equal. lia.
      * intros H j Hj. replace (S k + j)%nat with (k + S j)%nat by lia.
        rewrite H by lia. f_equal. lia.
Qed.

Lemma count_failures_app a : ∀ b k e rdata f,
  count_failures (a + b) k e rdata f
  = count_failures b (k + a) (e + Z.of_nat a) rdata
                   (count_failures a k e rdata f).
Proof.
  induction a as [|a IH]; intros b k e rdata f.
  - simpl. by rewrite Nat.add_0_r, Z.add_0_r.
  - cbn [Nat.add count_failures]. rewrite IH.
    f_equal; [lia|lia].
Qed.

Lemma vds_rows_flat rows cols : ∀ k e rdata f,
  vds_rows_failures rows cols k e rdata f
  = count_failures (rows * cols) k e rdata f.
Proof.
  induction rows as [|rows IH]; intros k e rdata f; [done|].
  cbn [vds_rows_failures Nat.mul]. by rewrite IH, count_failures_app.
Qed.

Lemma generate_test_files_data_lookup rank (j : nat) :
  (j < 100)%nat →
  generate_test_files_data rank !! j = Some (100 * rank + Z.of_nat j).
Proof.
  intros Hj. unfold generate_test_files_data, RANK_ELEMENTS.
  rewrite list_lookup_fmap, lookup_seqZ_lt by lia. simpl. done.
Qed.

Lemma generate_test_files_data_length rank :
  length (generate_test_files_data rank) = 100%nat.
Proof.
  unfold generate_test_files_data. by rewrite length_fmap, length_seqZ.
Qed.

Lemma rows_in_rank_order_S (n : nat) :
  mjoin (generate_test_files_data <$> seqZ 0 (Z.of_nat (S n)))
  = mjoin (generate_test_files_data <$> seqZ 0 (Z.of_nat n))
    ++ generate_test_files_data (Z.of_nat n).
Proof.
  rewrite seqZ_S, fmap_app, join_app. by f_equal.
Qed.

Lemma rows_in_rank_order_length (n : nat) :
  length (mjoin (generate_test_files_data <$> seqZ 0 (Z.of_nat n)))
  = (100 * n)%nat.
Proof.
  induction n as [|n IH]; [done|].
  rewrite rows_in_rank_order_S, length_app, IH,
    generate_test_files_data_length. lia.
Qed.

End TestData.

(** X10: What [generate_test_files] writes for a process is what
    [independent_read_vds] expects to read back for the process of that
    rank, and nothing else: a row of 100 cells passes the check without a
    failure exactly when it is the row written; the number of failures
    counted is never above 100. *)
Theorem independent_read_vds_accepts_what_was_written (mpi_rank : Z)
    (rdata0 : list Z) :
  0 ≤ mpi_rank → 100 * mpi_rank + 100 ≤ INT_MAX →
  length rdata0 = 100%nat →
  (independent_read_vds_failures mpi_rank rdata0 = 0
   ↔ rdata0 = generate_test_files_data mpi_rank)
  ∧ 0 ≤ independent_read_vds_failures mpi_rank rdata0 ≤ 100.
Proof.
  intros Hr Hmax Hlen. unfold independent_read_vds_failures. split.
  - rewrite count_failures_none. split.
    + intros H. apply list_eq. intros j.
      destruct (decide (j < 100)%nat) as [Hj|Hj].
      * rewrite generate_test_files_data_lookup by done.
        by rewrite <- (H j Hj).
      * rewrite !lookup_ge_None_2;
          [done|rewrite generate_test_files_data_length; lia|lia].
    + intros -> j Hj. by apply generate_test_files_data_lookup.
  - pose proof (count_failures_bounds 100 0 (100 * mpi_rank) rdata0 0). lia.
Qed.

(** X11: In [generate_vds_container] only the process of global rank 0
    checks the virtual dataset.  There the check passes without a failure
    exactly when the buffer starts with 0, 1, 2, ... up to the size of the
    dataset; on every other process no failure is counted, whatever the
    buffer holds.  The rows the processes write, laid out in rank order,
    pass on every process. *)
Theorem generate_vds_container_accepts_rows_in_rank_order
    (mpi_global_rank group_size : Z) (rdata : list Z) :
  0 ≤ group_size → 100 * group_size ≤ INT_MAX →
  (generate_vds_container_failures 0 group_size rdata = 0
   ↔ take (Z.to_nat (100 * group_size)) rdata = seqZ 0 (100 * group_size))
  ∧ (mpi_global_rank ≠ 0 →
     generate_vds_container_failures mpi_global_rank group_size rdata = 0)
  ∧ generate_vds_container_failures mpi_global_rank group_size
      (mjoin (generate_test_files_data <$> seqZ 0 group_size)) = 0.
Proof.
  intros Hg Hmax.
  assert (∀ l, generate_vds_container_failures 0 group_size l = 0
               ↔ take (Z.to_nat (100 * group_size)) l
                 = seqZ 0 (100 * group_size)) as Hiff.
  { intros l. unfold generate_vds_container_failures, RANK_ELEMENTS.
    cbv zeta. rewrite decide_True by done.
    rewrite vds_rows_flat, count_failures_none.
    replace (Z.to_nat group_size * Z.to_nat 100)%nat
      with (Z.to_nat (100 * group_size)) by lia.
    set (n := Z.to_nat (100 * group_size)).
    replace (100 * group_size) with (Z.of_nat n) by lia.
    split.
    - intros H. apply list_eq. intros j.
      destruct (decide (j < n)%nat) as [Hj|Hj].
      + rewrite lookup_take_lt by done.
        rewrite lookup_seqZ_lt by lia. by rewrite <- (H j Hj).
      + rewrite lookup_take_ge by lia.
        by rewrite lookup_seqZ_ge by lia.
    - intros H j Hj. simpl.
      rewrite <- (lookup_take_lt l n j) by done.
      rewrite H, lookup_seqZ_lt by lia. done. }
  assert (∀ l, mpi_global_rank ≠ 0 →
               generate_vds_container_failures mpi_global_rank group_size l = 0)
    as Hother.
  { intros l Hr. unfold generate_vds_container_failures. cbv zeta.
    by rewrite decide_False. }
  split; [apply Hiff|]. split; [apply Hother|].
  destruct (decide (mpi_global_rank = 0)) as [->|Hr]; [|by apply Hother].
  apply Hiff.
  set (n := Z.to_nat group_size).
  replace group_size with (Z.of_nat n) by lia. clear.
  induction n as [|n IH]; [done|].
  rewrite rows_in_rank_order_S.
  replace (100 * Z.of_nat (S n)) with (100 * Z.of_nat n + 100) by lia.
  rewrite seqZ_app by lia.
  rewrite Z2Nat.inj_add by lia.
  pose proof (rows_in_rank_order_length n) as Hlen.
  replace (100 * n)%nat with (Z.to_nat (100 * Z.of_nat n)) in Hlen by lia.
  rewrite take_app_add' by done.
  rewrite take_ge in IH by lia. rewrite IH. f_equal.
  rewrite take_ge by (rewrite generate_test_files_data_length; lia).
  unfold generate_test_files_data, RANK_ELEMENTS.
  replace (0 + 100 * Z.of_nat n) with (100 * Z.of_nat n + 0) by lia.
  rewrite <- (fmap_add_seqZ (100 * Z.of_nat n) 0 100).
  apply list_fmap_ext. intros _ i _. lia.
Qed.

(** * The subfiling test: the flow of [main] *)

(** X12: [main] runs its three stages in order and stops at the first that
    reports failures: with a number of processes outside 4..6 no stage runs;
    the container is built only if the source files were generated without
    a failure, the independent read runs only if the container was built
    without a failure, and the exit status is [EXIT_SUCCESS] exactly when
    all three stages ran and none reported a failure. *)
Theorem main_stops_at_first_failure (mpi_global_rank mpi_global_size : Z)
    (gen : Z → Z) (vds rd : Z) :
  0 ≤ gen (Z.quot mpi_global_rank 2) → 0 ≤ vds → 0 ≤ rd →
  let r := main mpi_global_rank mpi_global_size gen vds rd in
  let g := Z.quot mpi_global_rank 2 in
  let sized := 4 ≤ mpi_global_size ≤ 6 in
  (stages r = [] ↔ ¬ sized)
  ∧ (StageGenerateTestFiles g ∈ stages r ↔ sized)
  ∧ (StageGenerateVdsContainer ∈ stages r ↔ sized ∧ gen g = 0)
  ∧ (StageIndependentReadVds ∈ stages r ↔ sized ∧ gen g = 0 ∧ vds = 0)
  ∧ (exit_status r = EXIT_SUCCESS ↔ sized ∧ gen g = 0 ∧ vds = 0 ∧ rd = 0).
Proof.
  intros Hgen Hvds Hrd. cbv zeta. unfold main, finish, EXIT_SUCCESS, EXIT_FAILURE.
  cbv zeta.
  repeat case_decide; cbn [stages exit_status];
    rewrite ?elem_of_cons, ?elem_of_nil;
    split_and!; split; try done; try lia;
    intuition (try discriminate; try lia; auto).
Qed.

(** X13: With [main]'s guard on the number of processes passed, the group a
    process is put in, half its rank, indexes a real entry of [FILENAMES]
    and [DSETNAMES], never the terminating NULL or a cell outside the
    arrays; the entry of [SRC_FILE] at the same index, the file that
    [generate_vds_container] maps and [main] removes at the end, is that
    file name followed by ".h5". *)
Theorem main_group_has_names (mpi_global_rank mpi_global_size : Z)
    (gen : Z → Z) (vds rd : Z) (group_id : Z) :
  0 ≤ mpi_global_rank < mpi_global_size →
  StageGenerateTestFiles group_id
    ∈ stages (main mpi_global_rank mpi_global_size gen vds rd) →
  group_id = mpi_global_rank / 2
  ∧ ∃ file dset,
      array_get FILENAMES group_id = Some (Some file)
      ∧ array_get DSETNAMES group_id = Some (Some dset)
      ∧ array_get SRC_FILE group_id = Some (file +:+ ".h5").
Proof.
  intros Hr Hin.
  assert (4 ≤ mpi_global_size ≤ 6 ∧ group_id = Z.quot mpi_global_rank 2)
    as [Hs ->].
  { revert Hin. unfold main, finish. cbv zeta.
    repeat case_decide; cbn [stages];
      rewrite ?elem_of_cons, ?elem_of_nil; [done|..];
      intros Hin; (split; [lia|]);
      intuition (try discriminate; try congruence). }
  rewrite Z.quot_div_nonneg by lia. split; [done|].
  assert (mpi_global_rank / 2 = 0 ∨ mpi_global_rank / 2 = 1
          ∨ mpi_global_rank / 2 = 2) as [-> | [-> | ->]];
    [pose proof (Z.div_mod mpi_global_rank 2);
     pose proof (Z.mod_pos_bound mpi_global_rank 2); lia|..];
    by eexists _, _.
Qed.

(** * Event-set API: creation and the read-only accessors *)

Section Accessors.

Context {RT : async_runtime}.
Implicit Types (st : state RT) (id : hid_t).

Lemma accessor_frame st id a (v : H5ES_t → value) :
  reads_only st id a
    (bind (H5I_object_verify id H5I_EVENTSET) (λ es,
      match es with
      | None => HGOTO_ERROR H5E_ARGS H5E_BADTYPE FAIL
                            "invalid event set identifier"
      | Some es =>
          bind (if decide (Ptr a ≠ NULL) then store (Ptr a) (v es) else ret tt)
               (λ _, ret SUCCEED)
      end) st).
Proof.
  unfold reads_only, bind, H5I_object_verify, event_set_of.
  destruct (ids st !! id) as [[es|t]|] eqn:E.
  - rewrite !decide_True by done. simpl.
    eexists _, _. split; [done|]. simpl.
    split_and!; try done.
    intros b Hb. by rewrite lookup_insert_ne.
  - eexists _, _. split; [done|]. simpl.
    split_and!; try done.
  - eexists _, _. split; [done|]. simpl.
    split_and!; try done.
Qed.

End Accessors.

(** X14: The four accessors with a cell to store their answer in always complete
    and read only: whatever the identifier, the registry, the event set and
    the runtime are as before (no operation is polled or released), no cell
    but the caller's changes, the call succeeds exactly when the identifier
    names an event set, and a failed call stores nothing. *)
Theorem accessors_read_only {RT : async_runtime} (st : state RT) (id : hid_t)
    (a : Z) :
  reads_only st id a (H5ESget_count id (Ptr a) st)
  ∧ reads_only st id a (H5ESget_op_counter id (Ptr a) st)
  ∧ reads_only st id a (H5ESget_err_status id (Ptr a) st)
  ∧ reads_only st id a (H5ESget_err_count id (Ptr a) st).
Proof.
  split_and!.
  - apply (accessor_frame st id a (λ es, VSize (H5ES__list_count (active es)))).
  - apply (accessor_frame st id a (λ es, VUInt64 (op_counter es))).
  - apply (accessor_frame st id a (λ es, VBool (err_occurred es))).
  - pose proof (accessor_frame st id a
      (λ es, if err_occurred es
             then VSize (H5ES__list_count (failed es)) else VSize 0)) as H.
    unfold H5ESget_err_count.
    unfold reads_only, bind, H5I_object_verify in *.
    destruct (ids st !! id) as [[es|t]|]; try exact H.
    rewrite !decide_True in * by done.
    by destruct (err_occurred es).
Qed.

(** X15: [H5ESget_err_count] and [H5ESget_err_status] agree: the count reported
    is never negative, the status read in the same state is available as
    well, a count other than 0 goes with the status TRUE and a status FALSE
    with the count 0. *)
Theorem err_count_agrees_with_err_status {RT : async_runtime} (st : state RT)
    (id : hid_t) (a a' : Z) (n : Z) :
  read_err_count id a st = Some n →
  0 ≤ n
  ∧ ∃ flag, read_err_status id a' st = Some flag
            ∧ (n ≠ 0 → flag = true) ∧ (flag = false → n = 0).
Proof.
  intros Hn.
  destruct (event_set_of id st) as [es|] eqn:Hid.
  - rewrite (read_err_count_es st id es a Hid) in Hn.
    rewrite (read_err_status_es st id es a' Hid).
    destruct (err_occurred es); simplify_eq; (split; [lia|]);
      eexists; split; try done.
  - exfalso. revert Hn. unfold read_err_count, H5ESget_err_count, bind.
    rewrite (verify_none st id) by done. simpl. done.
Qed.

(** X16: [H5EScreate] returns either the identifier the registry handed out,
    which is not negative, or exactly [H5I_INVALID_HID], whatever negative
    value the registry failed with; in the first case it pushed no error of
    its own, in the second the error on top of the stack is an event-set
    error, of kind CANTCREATE exactly when no event set could be created;
    in that case the registry is not asked. *)
Theorem H5EScreate_result {RT : async_runtime}
    (es_create : state RT → outcome (option H5ES_t))
    (id_register : H5I_type_t → H5ES_t → bool → state RT → outcome hid_t)
    (st st' : state RT) (r : hid_t) :
  H5EScreate es_create id_register st = Done r st' →
  (0 ≤ r
   ∧ ∃ es st1, es_create st = Done (Some es) st1
               ∧ id_register H5I_EVENTSET es true st1 = Done r st')
  ∨ (r = H5I_INVALID_HID
     ∧ (∃ e, head (err_stack st') = Some e ∧ err_maj e = H5E_EVENTSET
             ∧ (err_min e = H5E_CANTCREATE
                ↔ ∃ st1, es_create st = Done None st1))
     ∧ (∀ st1, es_create st = Done None st1 →
          ∀ other, H5EScreate es_create other st = Done r st')).
Proof.
  unfold H5EScreate, bind. intros Hrun.
  destruct (es_create st) as [[es|] st1| |] eqn:Hc; try done.
  - destruct (id_register H5I_EVENTSET es true st1) as [id st2| |] eqn:Hreg;
      try done.
    destruct (id <? 0) eqn:Hneg.
    + right. unfold HGOTO_ERROR in Hrun. simplify_eq. split; [done|].
      split; [|intros ? [=]].
      eexists. split_and!; [done..|]. split; [done|]. by intros [? [=]].
    + left. unfold ret in Hrun. simplify_eq. split; [lia|]. by eexists _, _.
  - right. unfold HGOTO_ERROR in Hrun. simplify_eq. split; [done|].
    split; [|by intros ? [= <-] other].
    eexists. split_and!; [done..|]. split; [by eexists|done].
Qed.

(** * The added statements on sample inputs *)

(** Four processes and a dataset of 8 rows by 100 columns, divided by
    rows: the block of process 1. *)
Lemma slab_set_inside_dataset_witness :
  ∃ s, slab_set 1 4 8 100 BYROW = Some s ∧
       count0 s = 1 ∧ count1 s = 1 ∧
       0 ≤ start0 s ∧ 0 ≤ block0 s ∧ start0 s + block0 s ≤ 8 ∧
       0 ≤ start1 s ∧ 0 ≤ block1 s ∧ start1 s + block1 s ≤ 100.
Proof.
  apply (slab_set_inside_dataset 1 4 8 100 BYROW);
    unfold INT_MAX, UINT64_MOD; lia.
Defined.

(** Ten rows shared out among four processes: row 9 is given to none. *)
Lemma slab_set_BYROW_partition_witness :
  (∃ r s, 0 ≤ r < 4 ∧ slab_set r 4 10 100 BYROW = Some s ∧ selects_row s 9)
  ↔ 9 < 10 - 10 mod 4.
Proof.
  destruct (slab_set_BYROW_partition 4 10 100) as [H _];
    [unfold INT_MAX; lia|unfold UINT64_MOD; lia|].
  apply (H 9). lia.
Defined.

(** Process 3 of four is given by [ZROW] what [BYROW] gives it. *)
Lemma slab_set_ZROW_process0_witness :
  slab_set 3 4 8 100 ZROW = slab_set 3 4 8 100 BYROW.
Proof.
  destruct (slab_set_ZROW_process0 3 4 8 100) as (_ & H & _).
  apply H. lia.
Defined.

(** A communicator size of 0 in the plain division by rows. *)
Lemma slab_set_division_by_zero_witness :
  slab_set 1 0 8 100 BYROW = None.
Proof.
  destruct (slab_set_division_by_zero 1 0 8 100 BYROW) as [_ H];
    [unfold INT_MAX; lia|].
  apply H. split; [reflexivity|left; reflexivity].
Defined.

(** Process 2 of four in [independent_read_vds]. *)
Lemma independent_read_vds_reads_own_row_witness :
  ∃ s, independent_read_vds_selection 2 4 = Some s ∧
       (∀ x, selects_row s x ↔ x = 2) ∧
       (∀ y, selects_col s y ↔ 0 ≤ y < RANK_ELEMENTS) ∧
       stride0 s ≠ 0 ∧ stride1 s ≠ 0 ∧
       datapoints s = RANK_ELEMENTS ∧ datapoints s ≤ rdata_capacity.
Proof.
  apply (independent_read_vds_reads_own_row 2 4); unfold INT_MAX; lia.
Defined.

(** The second process of a group of two in [generate_test_files]. *)
Lemma generate_test_files_writes_own_row_witness :
  ∃ s, generate_test_files_selection 1 2 = Some s ∧
       (datapoints s = memspace_elements ↔ 2 ≤ 2) ∧
       (2 ≤ 2 → ∀ x, selects_row s x ↔ x = 1) ∧
       (2 < 2 → datapoints s = 0).
Proof.
  apply (generate_test_files_writes_own_row 1 2); unfold INT_MAX; lia.
Defined.

(** Five processes: two pairs and one process left over. *)
Lemma generate_vds_container_mappings_tile_witness :
  mjoin (vm_rows <$> generate_vds_container_mappings 5) = seqZ 0 5
  ∧ Forall (λ m, vm_elements m = src_elements m)
           (generate_vds_container_mappings 5)
  ∧ Z.of_nat (length (generate_vds_container_mappings 5)) = (5 + 1) / 2.
Proof.
  apply (generate_vds_container_mappings_tile 5); unfold INT_MAX; lia.
Defined.

(** Seven processes: the fourth dataset name is read past the end of
    [SRC_DATASET]. *)
Lemma generate_vds_container_names_in_bounds_witness :
  (Forall (λ m, is_Some (vm_file m) ∧ is_Some (vm_dset m))
          (generate_vds_container_mappings 7)
   ↔ 7 ≤ 6)
  ∧ (Forall (λ m, is_Some (vm_file m)) (generate_vds_container_mappings 7)
     ↔ 7 ≤ 8).
Proof.
  apply (generate_vds_container_names_in_bounds 7); unfold INT_MAX; lia.
Defined.

(** The row process 3 wrote passes the check of process 3. *)
Lemma independent_read_vds_accepts_what_was_written_witness :
  independent_read_vds_failures 3 (generate_test_files_data 3) = 0.
Proof.
  destruct (independent_read_vds_accepts_what_was_written 3
              (generate_test_files_data 3)) as [[_ H] _];
    [lia|unfold INT_MAX; lia|vm_compute; reflexivity|].
  apply H. reflexivity.
Defined.

(** Four processes and a buffer that holds -7 in all its 400 cells:
    process 3 counts no failure, and process 0 would count none only if the
    buffer held 0 .. 399. *)
Lemma generate_vds_container_accepts_rows_in_rank_order_witness :
  (generate_vds_container_failures 0 4 (replicate 400 (-7)) = 0
   ↔ take (Z.to_nat (100 * 4)) (replicate 400 (-7)) = seqZ 0 (100 * 4))
  ∧ generate_vds_container_failures 3 4 (replicate 400 (-7)) = 0
  ∧ generate_vds_container_failures 3 4
      (mjoin (generate_test_files_data <$> seqZ 0 4)) = 0.
Proof.
  destruct (generate_vds_container_accepts_rows_in_rank_order 3 4
              (replicate 400 (-7))) as (Hzero & Hother & Hrows);
    [lia|unfold INT_MAX; lia|].
  split; [exact Hzero|]. split; [apply Hother; lia|exact Hrows].
Defined.

(** Process 3 of five; the source files are generated, building the
    container reports two failures: the independent read is skipped. *)
Lemma main_stops_at_first_failure_witness :
  StageIndependentReadVds ∈ stages (main 3 5 (λ _, 0) 2 0)
  ↔ 4 ≤ 5 ≤ 6 ∧ 0 = 0 ∧ 2 = 0.
Proof.
  destruct (main_stops_at_first_failure 3 5 (λ _, 0) 2 0)
    as (_ & _ & _ & H & _); [lia|lia|lia|].
  exact H.
Defined.

(** Process 5 of six belongs to group 2, the group of "subfile_c". *)
Lemma main_group_has_names_witness :
  2 = 5 / 2
  ∧ ∃ file dset,
      array_get FILENAMES 2 = Some (Some file)
      ∧ array_get DSETNAMES 2 = Some (Some dset)
      ∧ array_get SRC_FILE 2 = Some (file +:+ ".h5").
Proof.
  apply (main_group_has_names 5 6 (λ _, 0) 0 0 2); [lia|].
  vm_compute. apply list_elem_of_here.
Defined.

(** An event set with three failed records: the count 3 goes with the
    status TRUE. *)
Lemma err_count_agrees_with_err_status_witness :
  0 ≤ 3
  ∧ ∃ flag,
      read_err_status 7 201 (sample_state rt_failing [] three_failed)
      = Some flag
      ∧ (3 ≠ 0 → flag = true) ∧ (flag = false → 3 = 0).
Proof.
  apply (err_count_agrees_with_err_status
           (sample_state rt_failing [] three_failed) 7 200 201 3).
  vm_compute. reflexivity.
Defined.

(** The registry fails with -5: [H5EScreate] returns [H5I_INVALID_HID]. *)
Lemma H5EScreate_result_witness :
  ∃ st' : state rt_mixed,
    H5EScreate (λ s, Done (Some H5ES__create) s) (λ _ _ _ s, Done (-5) s)
      (sample_state rt_mixed [] two_active)
    = Done H5I_INVALID_HID st'
    ∧ ∃ e, head (err_stack st') = Some e ∧ err_maj e = H5E_EVENTSET
           ∧ err_min e ≠ H5E_CANTCREATE.
Proof.
  eexists. split; [vm_compute; reflexivity|].
  destruct (H5EScreate_result (RT := rt_mixed)
              (λ s, Done (Some H5ES__create) s) (λ _ _ _ s, Done (-5) s)
              (sample_state rt_mixed [] two_active)
              (set_err_stack
                 [mkErr H5E_EVENTSET H5E_CANTREGISTER
                        "can't register event set"]
                 (sample_state rt_mixed [] two_active))
              H5I_INVALID_HID) as [[Hneg _]|(_ & (e & He & Hmaj & Hmin) & _)].
  - vm_compute. reflexivity.
  - exfalso. revert Hneg. unfold H5I_INVALID_HID. lia.
  - exists e. split_and!; [exact He|exact Hmaj|].
    intros Hc. apply Hmin in Hc as [st1 Hst1]. discriminate Hst1.
Defined.
